(** * The verification client of the Catechism-Scripture Analyzer

    A shallow embedding of [verify_claim] (app.py): the request it
    builds, its retry loop with exponential backoff, the parsing of the
    model's JSON answer, the extraction of the grounding sources, and
    the [st.cache_data] memoisation around it.

    Python values are dynamically typed, so the JSON answer is modelled
    as a value of [pyval] and every operation the code applies to it
    ([.get], [[0]], [['key']], [in], iteration, truth testing) is
    modelled with the exception it raises on a value of the wrong
    type. *)

From Stdlib Require Import ZArith String Ascii List Lia.
From Stdlib Require Import Floats.SpecFloat.
From stdpp Require Import base gmap strings pretty.
Import ListNotations.

Set Warnings "-register-all".
Local Open Scope string_scope.
Local Open Scope list_scope.
Local Open Scope Z_scope.

(** ** Python values *)

Module Py.

(** What [json.loads] builds, and what [verify_claim] returns.  A [dict]
    is kept as an association list read by its first matching key. *)
Inductive pyval : Type :=
| PNone
| PBool (b : bool)
| PInt (z : Z)
| PFloat (f : spec_float)
| PStr (s : string)
| PList (l : list pyval)
| PDict (d : list (string * pyval)).

(** The exception classes that matter to the [except] clauses of
    [verify_claim]: [RequestException] stands for
    [requests.exceptions.RequestException] and all its subclasses
    (ConnectionError, Timeout, HTTPError, ...); the others are
    subclasses of [Exception] outside that family. *)
Inductive exn_class : Type :=
| RequestException
| IndexError
| KeyError
| TypeError
| AttributeError
| ValueError
| OtherException.

(** An exception instance: its class and [str(e)]. *)
Record exn : Type := Exn { exn_cls : exn_class; exn_str : string }.

(** [isinstance(e, requests.exceptions.RequestException)] *)
Definition is_request_exception (e : exn) : bool :=
  match exn_cls e with
  | RequestException => true
  | _ => false
  end.

(** A computation that returns or raises. *)
Definition exc (A : Type) : Type := (exn + A)%type.

Definition ret {A} (a : A) : exc A := inr a.
Definition raise {A} (c : exn_class) (msg : string) : exc A :=
  inl (Exn c msg).
Definition bind {A B} (m : exc A) (k : A -> exc B) : exc B :=
  match m with
  | inl e => inl e
  | inr a => k a
  end.

Declare Scope py_scope.
Delimit Scope py_scope with py.
Notation "'let*' x ':=' m 'in' k" := (bind m (fun x => k))
  (at level 10, x name, m at level 100, k at level 200) : py_scope.

(** [type(v).__name__] *)
Definition type_name (v : pyval) : string :=
  match v with
  | PNone => "NoneType"
  | PBool _ => "bool"
  | PInt _ => "int"
  | PFloat _ => "float"
  | PStr _ => "str"
  | PList _ => "list"
  | PDict _ => "dict"
  end.

(** [bool(v)] *)
Definition truthy (v : pyval) : bool :=
  match v with
  | PNone => false
  | PBool b => b
  | PInt z => negb (z =? 0)
  | PFloat (S754_zero _) => false
  | PFloat _ => true
  | PStr EmptyString => false
  | PStr _ => true
  | PList [] => false
  | PList _ => true
  | PDict [] => false
  | PDict _ => true
  end.

Fixpoint dict_lookup (k : string) (d : list (string * pyval)) : option pyval :=
  match d with
  | [] => None
  | (k', v) :: d' => if String.eqb k k' then Some v else dict_lookup k d'
  end.

(** [v.get(k, dflt)]: only a dict has the method. *)
Definition get (v : pyval) (k : string) (dflt : pyval) : exc pyval :=
  match v with
  | PDict d =>
      match dict_lookup k d with
      | Some x => ret x
      | None => ret dflt
      end
  | _ => raise AttributeError
           ("'" +:+ type_name v +:+ "' object has no attribute 'get'")
  end.

(** [v[0]] *)
Definition index0 (v : pyval) : exc pyval :=
  match v with
  | PList (x :: _) => ret x
  | PList [] => raise IndexError "list index out of range"
  | PStr (String c _) => ret (PStr (String c EmptyString))
  | PStr EmptyString => raise IndexError "string index out of range"
  | PDict _ => raise KeyError "0"
  | _ => raise TypeError ("'" +:+ type_name v +:+ "' object is not subscriptable")
  end.

(** [v[k]] for a string literal [k] *)
Definition getitem (v : pyval) (k : string) : exc pyval :=
  match v with
  | PDict d =>
      match dict_lookup k d with
      | Some x => ret x
      | None => raise KeyError ("'" +:+ k +:+ "'")
      end
  | PStr _ => raise TypeError "string indices must be integers, not 'str'"
  | PList _ => raise TypeError "list indices must be integers or slices, not str"
  | _ => raise TypeError ("'" +:+ type_name v +:+ "' object is not subscriptable")
  end.

Definition is_substring (k s : string) : bool :=
  match String.index 0 k s with
  | Some _ => true
  | None => false
  end.

(** [k in v] for a string literal [k]: key of a dict, element of a list,
    substring of a str. *)
Definition contains (k : string) (v : pyval) : exc bool :=
  match v with
  | PDict d =>
      ret (match dict_lookup k d with Some _ => true | None => false end)
  | PList l =>
      ret (existsb (fun x => match x with
                             | PStr s => String.eqb s k
                             | _ => false
                             end) l)
  | PStr s => ret (is_substring k s)
  | _ => raise TypeError
           ("argument of type '" +:+ type_name v +:+ "' is not iterable")
  end.

Fixpoint chars (s : string) : list pyval :=
  match s with
  | EmptyString => []
  | String c s' => PStr (String c EmptyString) :: chars s'
  end.

(** The items a [for] loop over [v] visits. *)
Definition iter (v : pyval) : exc (list pyval) :=
  match v with
  | PList l => ret l
  | PStr s => ret (chars s)
  | PDict d => ret (map (fun kv => PStr (fst kv)) d)
  | _ => raise TypeError ("'" +:+ type_name v +:+ "' object is not iterable")
  end.

(** [a and b], with [b] evaluated only when [a] is truthy. *)
Definition and_then (a : pyval) (b : exc pyval) : exc pyval :=
  if truthy a then b else ret a.

End Py.

Import Py.
Local Open Scope py_scope.

(** ** The HTTP layer ([requests]) and the clock ([time]) *)

(** What [requests.post] is called with.  [data] holds the payload that
    the code serialises with [json.dumps]. *)
Record request : Type := Request {
  req_url : string;
  req_headers : list (string * string);
  req_data : pyval;
  req_timeout : Z
}.

(** A [requests.Response], as far as [verify_claim] looks at it:
    [json_body] is what [response.json()] returns or raises. *)
Record response : Type := Response {
  status_code : Z;
  reason : string;
  url : string;
  json_body : exc pyval
}.

(** [response.raise_for_status()] of the requests library: an
    [HTTPError] (a [RequestException]) for a status from 400 to 599,
    nothing for any other status. *)
Definition raise_for_status (r : response) : exc unit :=
  if (400 <=? status_code r) && (status_code r <? 500) then
    raise RequestException
      (pretty (status_code r) +:+ " Client Error: " +:+ reason r
       +:+ " for url: " +:+ url r)
  else if (500 <=? status_code r) && (status_code r <? 600) then
    raise RequestException
      (pretty (status_code r) +:+ " Server Error: " +:+ reason r
       +:+ " for url: " +:+ url r)
  else ret tt.

(** What the process has done to the outside so far. *)
Inductive event : Type :=
| EvPost (r : request)
| EvSleep (seconds : Z).

Record world : Type := World {
  net_calls : nat;
  trace : list event
}.

(** The network: what the [n]-th call of the process (counted from 0)
    gives for a request, a response or an exception. *)
Definition transport : Type := nat -> request -> exc response.

Definition io (A : Type) : Type := world -> A * world.

Definition requests_post (tr : transport) (r : request) : io (exc response) :=
  fun w =>
    (tr (net_calls w) r,
     {| net_calls := S (net_calls w); trace := trace w ++ [EvPost r] |}).

Definition time_sleep (seconds : Z) : io unit :=
  fun w =>
    (tt, {| net_calls := net_calls w; trace := trace w ++ [EvSleep seconds] |}).

(** ** app.py *)

Definition API_URL : string :=
  "https://generativelanguage.googleapis.com/v1beta/models/gemini-2.5-flash-preview-05-20:generateContent".
Definition MODEL_NAME : string := "gemini-2.5-flash-preview-05-20".
Definition MAX_RETRIES : Z := 5.

Definition system_prompt : string :=
  "You are an impartial, highly detailed Scriptural Fact-Checker and Comparative Theologian. "
  +:+ "Your primary goal is to provide clarity by comparing Roman Catholic doctrine with explicit biblical support. "
  +:+ "Analyze the user's claim and structure your response into these two distinct, fact-based sections: "
  +:+ "1. **Roman Catholic Doctrine (Catechism/Tradition):** State the official Roman Catholic teaching regarding the claim. You MUST cite the Catechism of the Catholic Church (CCC) or official Magisterial tradition as the primary source for this doctrine. "
  +:+ "2. **Scriptural Verification (CSB, KJV, Other Bibles):** Examine the claim against the explicit text of the Bible, prioritizing the **Christian Standard Bible (CSB)** and **King James Version (KJV)** translations, and noting if other standard translations (like the New World Study Bible or World Study Bible) contain explicit references. Specifically note where direct, unambiguous scriptural support for the doctrine is **present or absent**. "
  +:+ "Use Google Search for grounding to ensure accuracy on both the Catechism text and the biblical textual status. Maintain a neutral, factual tone.".

Definition user_query (claim : string) : string :=
  "Provide a comparative analysis of the claim: '" +:+ claim +:+ "'".

Definition payload (claim : string) : pyval :=
  PDict [
    ("contents", PList [PDict [("parts", PList [PDict [("text", PStr (user_query claim))]])]]);
    ("tools", PList [PDict [("google_search", PDict [])]]);
    ("systemInstruction", PDict [("parts", PList [PDict [("text", PStr system_prompt)]])])
  ].

Definition headers : list (string * string) :=
  [("Content-Type", "application/json")].

(** [range(n)] *)
Definition range (n : Z) : list Z := map Z.of_nat (seq 0 (Z.to_nat n)).

Definition empty_candidate_text : string :=
  "Error: Model returned an empty response candidate.".

Definition connect_failure_text (e : exn) : string :=
  "Error: Failed to connect to the verification service after "
  +:+ pretty MAX_RETRIES +:+ " attempts. Details: " +:+ exn_str e.

Definition unexpected_error_text (e : exn) : string :=
  "An unexpected error occurred during API processing: " +:+ exn_str e.

(** The dict literal [{"text": t, "sources": s}]. *)
Definition result_dict (t : pyval) (s : list pyval) : pyval :=
  PDict [("text", t); ("sources", PList s)].

(** Lines 73-76, the list comprehension
    [[{'uri': attr['web']['uri'], 'title': attr['web']['title']}
      for attr in sources if 'web' in attr and attr['web'].get('uri')]]. *)
Fixpoint web_sources (items : list pyval) : exc (list pyval) :=
  match items with
  | [] => ret []
  | attr :: rest =>
      let* has_web := contains "web" attr in
      let* keep :=
        (if has_web : bool then
           let* web := getitem attr "web" in
           let* uri := get web "uri" PNone in
           ret (truthy uri)
         else ret false) in
      if keep : bool then
        let* web := getitem attr "web" in
        let* uri := getitem web "uri" in
        let* web' := getitem attr "web" in
        let* title := getitem web' "title" in
        let* tail := web_sources rest in
        ret (PDict [("uri", uri); ("title", title)] :: tail)
      else web_sources rest
  end.

(** Lines 67-76: [sources] starts empty and is replaced by the web
    attributions when the candidate has grounding metadata with a
    truthy attribution list. *)
Definition extract_sources (candidate : pyval) : exc (list pyval) :=
  let* grounding_metadata := get candidate "groundingMetadata" PNone in
  let* attributions :=
    and_then grounding_metadata
      (get grounding_metadata "groundingAttributions" PNone) in
  if truthy attributions then
    let* sources := getitem grounding_metadata "groundingAttributions" in
    let* items := iter sources in
    web_sources items
  else ret [].

(** Line 65, the condition
    [candidate and candidate.get('content', {}).get('parts', [{}])[0].get('text')]. *)
Definition candidate_text (candidate : pyval) : exc pyval :=
  and_then candidate
    (let* content := get candidate "content" (PDict []) in
     let* parts := get content "parts" (PList [PDict []]) in
     let* part := index0 parts in
     get part "text" PNone).

(** Line 66, [candidate['content']['parts'][0]['text']]. *)
Definition text_of (candidate : pyval) : exc pyval :=
  let* content := getitem candidate "content" in
  let* parts := getitem content "parts" in
  let* part := index0 parts in
  getitem part "text".

(** Line 63, [result.get('candidates', [{}])[0]]. *)
Definition first_candidate (result : pyval) : exc pyval :=
  let* candidates := get result "candidates" (PList [PDict []]) in
  index0 candidates.

(** Lines 63-81: what the [try] block does with the parsed body. *)
Definition process_result (result : pyval) : exc pyval :=
  let* candidate := first_candidate result in
  let* cond := candidate_text candidate in
  if truthy cond then
    let* text := text_of candidate in
    let* sources := extract_sources candidate in
    ret (result_dict text sources)
  else
    ret (result_dict (PStr empty_candidate_text) []).

(** Lines 60-81: the [try] block after [requests.post] has returned. *)
Definition process_response (r : response) : exc pyval :=
  let* _u := raise_for_status r in
  let* result := json_body r in
  process_result result.

(** Lines 59-81: the whole [try] block, given what [requests.post]
    did. *)
Definition try_block (posted : exc response) : exc pyval :=
  let* r := posted in
  process_response r.

Section VerifyClaim.

(** [st.secrets.tool_auth.gemini_api_key], read from the deployment's
    secrets file. *)
Variable API_KEY : string.

(** The network the process talks to. *)
Variable tr : transport.

Definition build_request (claim : string) : request :=
  {| req_url := API_URL +:+ "?key=" +:+ API_KEY;
     req_headers := headers;
     req_data := payload claim;
     req_timeout := 60 |}.

(** Lines 57-91, [for attempt in range(MAX_RETRIES)] over the attempts
    that remain.  The first [except] clause takes the
    [RequestException]s, the second every other [Exception], so nothing
    the [try] block raises leaves the loop.  A loop that runs out of
    attempts falls off the end of the function, which returns [None]. *)
Fixpoint retry_loop (claim : string) (attempts : list Z) (w : world)
  {struct attempts} : pyval * world :=
  match attempts with
  | [] => (PNone, w)
  | attempt :: rest =>
      let '(posted, w1) := requests_post tr (build_request claim) w in
      match try_block posted with
      | inr v => (v, w1)
      | inl e =>
          if is_request_exception e then
            if attempt <? MAX_RETRIES - 1 then
              let delay := 2 ^ attempt in
              let '(_, w2) := time_sleep delay w1 in
              retry_loop claim rest w2
            else
              (result_dict (PStr (connect_failure_text e)) [], w1)
          else
            (result_dict (PStr (unexpected_error_text e)) [], w1)
      end
  end.

(** The body of [verify_claim] (lines 20-91), before the decorator. *)
Definition verify_claim (claim : string) : io pyval :=
  retry_loop claim (range MAX_RETRIES).

End VerifyClaim.

(** ** The decorator [@st.cache_data(show_spinner=False)]

    Streamlit keeps, for the life of the process, the value the
    function returned for each argument it was called with (no [ttl],
    no [max_entries]), and answers a repeated call from that store
    without running the function. *)

Record process : Type := Process {
  cache : gmap string pyval;
  outside : world
}.

Definition cache_data (f : string -> io pyval) (claim : string)
  : process -> pyval * process :=
  fun p =>
    match cache p !! claim with
    | Some v => (v, p)
    | None =>
        let '(v, w') := f claim (outside p) in
        (v, {| cache := <[claim := v]> (cache p); outside := w' |})
    end.

(** [verify_claim] as the rest of app.py sees it, decorated. *)
Definition verify_claim_cached (API_KEY : string) (tr : transport)
  : string -> process -> pyval * process :=
  cache_data (verify_claim API_KEY tr).

(** A sequence of calls made one after the other by the same process. *)
Fixpoint run_calls (API_KEY : string) (tr : transport) (claims : list string)
  (p : process) : process :=
  match claims with
  | [] => p
  | c :: rest => run_calls API_KEY tr rest (snd (verify_claim_cached API_KEY tr c p))
  end.

(** ** Vocabulary of the properties *)

(** The attempt ends in the [except RequestException] clause. *)
Definition retryable (posted : exc response) : bool :=
  match try_block posted with
  | inl e => is_request_exception e
  | inr _ => false
  end.

(** A transport-level failure: [requests.post] raised a
    [RequestException] (connection error, timeout), or it returned a
    response on which [raise_for_status] raises.  Gives the exception. *)
Definition transport_failure (posted : exc response) : option exn :=
  match posted with
  | inl e => if is_request_exception e then Some e else None
  | inr r =>
      match raise_for_status r with
      | inl e => Some e
      | inr _ => None
      end
  end.

(** What the last attempt of a run makes [verify_claim] return. *)
Definition final_value (o : exc pyval) : pyval :=
  match o with
  | inr v => v
  | inl e =>
      if is_request_exception e
      then result_dict (PStr (connect_failure_text e)) []
      else result_dict (PStr (unexpected_error_text e)) []
  end.

(** The events of a run whose first [k] attempts were retried: each of
    them is followed by a sleep of [2^i], and attempt [k] ends the run. *)
Definition schedule_from (req : request) (a k : nat) : list event :=
  flat_map (fun i => [EvPost req; EvSleep (2 ^ Z.of_nat i)]) (seq a k)
  ++ [EvPost req].

Definition schedule (req : request) (k : nat) : list event :=
  schedule_from req 0 k.

Definition posts (evs : list event) : nat :=
  length (List.filter (fun e => match e with EvPost _ => true | _ => false end) evs).

Definition slept (evs : list event) : Z :=
  fold_right (fun e acc => match e with EvSleep d => d + acc | _ => acc end) 0 evs.

(** [isinstance(v, str)] *)
Definition is_str (v : pyval) : bool :=
  match v with
  | PStr _ => true
  | _ => false
  end.

(** [list(v.keys())] of a dict. *)
Definition keys (v : pyval) : option (list string) :=
  match v with
  | PDict d => Some (map fst d)
  | _ => None
  end.

(** The success path of the [try] block (the [return] of line 78): the
    post returned a response that passed [raise_for_status], whose body
    parsed, and whose first candidate holds the truthy [text]; [sources]
    is what lines 67-76 extract from that candidate. *)
Definition returned_by_success (posted : exc response)
  (text : pyval) (sources : list pyval) : Prop :=
  exists r body candidate,
    posted = inr r /\
    raise_for_status r = inr tt /\
    json_body r = inr body /\
    first_candidate body = inr candidate /\
    text_of candidate = inr text /\
    truthy text = true /\
    extract_sources candidate = inr sources.

(** A body of the shape the API documents: one candidate with a text
    part and a list of grounding attributions. *)
Definition api_body (text : pyval) (attrs : list pyval) : pyval :=
  PDict [
    ("candidates", PList [
       PDict [
         ("content", PDict [("parts", PList [PDict [("text", text)]])]);
         ("groundingMetadata", PDict [("groundingAttributions", PList attrs)])
       ]])
  ].

(** The attribution has a web object with a non-empty uri. *)
Definition has_web_uri (attr : pyval) : bool :=
  match attr with
  | PDict d =>
      match dict_lookup "web" d with
      | Some (PDict wd) =>
          match dict_lookup "uri" wd with
          | Some u => truthy u
          | None => false
          end
      | _ => false
      end
  | _ => false
  end.

(** The SourceRef of an attribution that has a web uri and a title. *)
Definition source_ref (attr : pyval) : pyval :=
  match attr with
  | PDict d =>
      match dict_lookup "web" d with
      | Some (PDict wd) =>
          match dict_lookup "uri" wd, dict_lookup "title" wd with
          | Some u, Some t => PDict [("uri", u); ("title", t)]
          | _, _ => PNone
          end
      | _ => PNone
      end
  | _ => PNone
  end.

(** An attribution record the comprehension of lines 73-76 goes through
    without raising: a JSON object whose [web] member, when present, is
    an object that has a [title] whenever it has a non-empty [uri]. *)
Definition attr_ok (attr : pyval) : bool :=
  match attr with
  | PDict d =>
      match dict_lookup "web" d with
      | None => true
      | Some (PDict wd) =>
          match dict_lookup "uri" wd with
          | Some u =>
              if truthy u
              then match dict_lookup "title" wd with Some _ => true | None => false end
              else true
          | None => true
          end
      | Some _ => false
      end
  | _ => false
  end.

(** ** Example inputs *)

(** A process that has not touched the network yet. *)
Definition fresh : world := {| net_calls := 0; trace := [] |}.

Definition ok_response (body : pyval) : response :=
  {| status_code := 200; reason := "OK"; url := API_URL; json_body := inr body |}.

(** A network on which every call is refused. *)
Definition always_down : transport :=
  fun _ _ => inl (Exn RequestException "Connection refused").

(** A network that times out four times and then answers. *)
Definition flaky : transport :=
  fun n _ =>
    if (n <? 4)%nat then inl (Exn RequestException "Read timed out")
    else inr (ok_response (api_body (PStr "Analysis") [])).

(** A network that always gives the same response. *)
Definition always (r : response) : transport := fun _ _ => inr r.

(** A 300 answer that carries a well-formed body. *)
Definition multiple_choices : response :=
  {| status_code := 300; reason := "Multiple Choices"; url := API_URL;
     json_body := inr (api_body (PStr "Analysis") []) |}.

Definition unauthorized : response :=
  {| status_code := 401; reason := "Unauthorized"; url := API_URL;
     json_body := inr (PDict []) |}.

(** The body [{"candidates": []}]. *)
Definition no_candidates : pyval := PDict [("candidates", PList [])].

(** The attribution list [[{web:{uri:"https://a"}}, {other:{}},
    {web:{uri:"https://b", title:"B"}}]]. *)
Definition mixed_attributions : list pyval :=
  [ PDict [("web", PDict [("uri", PStr "https://a")])];
    PDict [("other", PDict [])];
    PDict [("web", PDict [("uri", PStr "https://b"); ("title", PStr "B")])] ].

(** Two attributions of the same page around one without a web
    object. *)
Definition repeated_attributions : list pyval :=
  [ PDict [("web", PDict [("uri", PStr "https://a"); ("title", PStr "A")])];
    PDict [("other", PDict [])];
    PDict [("web", PDict [("uri", PStr "https://a"); ("title", PStr "A")])] ].

(** ** The page ([main], lines 96-154)

    Streamlit runs [main] from top to bottom on every interaction; one
    such run is modelled, with the values the widgets hand back to it.
    The calls that draw on the page are logged in order. *)

Inductive ui_call : Type :=
| SetPageConfig (page_title layout initial_sidebar_state : string)
| Title (body : string)
| Markdown (body : pyval)
| TextArea (label placeholder : string) (height : Z)
| Button (label type : string)
| Spinner (text : string)
| Subheader (body : string)
| Caption (body : string)
| Warning (body : string).

(** What [st.text_area] and [st.button] return in this run. *)
Record widgets : Type := Widgets {
  claim_input : string;
  clicked : bool
}.

Record session : Type := Session {
  screen : list ui_call;
  proc : process
}.

(** A step of the script: it returns or raises, and changes the page
    and the process. *)
Definition act (A : Type) : Type := session -> exc A * session.

Definition act_ret {A} (a : A) : act A := fun s => (inr a, s).

Definition act_bind {A B} (m : act A) (k : A -> act B) : act B :=
  fun s =>
    match m s with
    | (inl e, s') => (inl e, s')
    | (inr a, s') => k a s'
    end.

Notation "'let!' x ':=' m 'in' k" := (act_bind m (fun x => k))
  (at level 10, x name, m at level 100, k at level 200) : py_scope.

(** A drawing call of [st]. *)
Definition st (c : ui_call) : act unit :=
  fun s => (inr tt, {| screen := screen s ++ [c]; proc := proc s |}).

(** An expression on Python values inside the script. *)
Definition expr {A} (m : exc A) : act A := fun s => (m, s).

Definition newline : string := String "010"%char EmptyString.

Definition page_title_text : string := "The Catechism-Scripture Analyzer".
Definition title_text : string := "⚖️ The Catechism-Scripture Analyzer".
Definition intro_text : string :=
  "
        A neutral, fact-based tool designed to help you research and compare specific doctrines taught
        by the **Catechism of the Catholic Church (CCC)** against the explicit textual content of
        various Protestant Bibles, including the **Christian Standard Bible (CSB)** and the **King James Version (KJV)**.
        
        Enter any theological claim for a detailed, dual-source analysis.
        ".
Definition text_area_label : string :=
  "Enter a Theological Claim for Comparative Analysis:".
Definition text_area_placeholder : string :=
  "E.g., 'The Catholic Church teaches Purgatory exists.' or 'The Assumption of Mary'".
Definition spinner_text : string :=
  "Searching official sources and performing dual-source analysis...".
Definition results_heading : string := "### 🔎 Comparative Analysis Results".
Definition sources_heading : string := "🌐 Grounding Sources".
Definition sources_caption : string :=
  "Note: Grounding sources are provided by Google Search and may include links to official Catechism documents or reputable theological sites.".
Definition no_sources_warning : string :=
  "No specific grounding sources were found, or the model relied on internal knowledge.".
Definition no_claim_warning : string :=
  "Please enter a claim to begin analysis.".

Section Page.

(** [str(v)], as the f-string of line 146 applies it to the title and
    the uri. *)
Variable py_str : pyval -> string.

Variable API_KEY : string.
Variable tr : transport.

(** Lines 142-146: the loop that builds [source_list], started from the
    list built so far.
    [title = source.get('title') or source['uri']] evaluates the
    subscript only when the title is missing or falsy. *)
Fixpoint render_sources (sources : list pyval) (source_list : string)
  : exc string :=
  match sources with
  | [] => ret source_list
  | source :: rest =>
      let* t := get source "title" PNone in
      let* title := (if truthy t then ret t else getitem source "uri") in
      let* uri := getitem source "uri" in
      render_sources rest
        (source_list +:+ "- **[" +:+ py_str title +:+ "](" +:+ py_str uri
         +:+ ")**" +:+ newline)
  end.

(** Line 128, the call of the decorated [verify_claim]. *)
Definition call_verify_claim (claim : string) : act pyval :=
  fun s =>
    let '(v, p') := verify_claim_cached API_KEY tr claim (proc s) in
    (inr v, {| screen := screen s; proc := p' |}).

(** Lines 131-151, the display of the results. *)
Definition show_results (results : pyval) : act unit :=
  let! _u := st (Markdown (PStr results_heading)) in
  let! text := expr (getitem results "text") in
  let! _u := st (Markdown text) in
  let! sources := expr (getitem results "sources") in
  if truthy sources then
    let! _u := st (Markdown (PStr "---")) in
    let! _u := st (Subheader sources_heading) in
    let! items := expr (iter sources) in
    let! source_list := expr (render_sources items EmptyString) in
    let! _u := st (Markdown (PStr source_list)) in
    st (Caption sources_caption)
  else
    st (Warning no_sources_warning).

(** Lines 99-121: the page above the results. *)
Definition page_header : list ui_call :=
  [ SetPageConfig page_title_text "wide" "collapsed";
    Title title_text;
    Markdown (PStr intro_text);
    TextArea text_area_label text_area_placeholder 100;
    Button "Analyze Comparison" "primary" ].

Definition main (wd : widgets) : act unit :=
  let! _u := st (SetPageConfig page_title_text "wide" "collapsed") in
  let! _u := st (Title title_text) in
  let! _u := st (Markdown (PStr intro_text)) in
  let! _u := st (TextArea text_area_label text_area_placeholder 100) in
  let! _u := st (Button "Analyze Comparison" "primary") in
  if clicked wd then
    if truthy (PStr (claim_input wd)) then
      let! _u := st (Spinner spinner_text) in
      let! results := call_verify_claim (claim_input wd) in
      show_results results
    else
      st (Warning no_claim_warning)
  else
    act_ret tt.

End Page.

(** ** Vocabulary of the page and cache properties *)

(** A SourceRef as line 74 builds it: a dict with the keys uri and
    title, in that order, whose uri is truthy. *)
Definition is_source_ref (v : pyval) : Prop :=
  exists u t, v = PDict [("uri", u); ("title", t)] /\ truthy u = true.

(** A value of the shape every [return] of [verify_claim] has. *)
Definition is_verification_result (v : pyval) : Prop :=
  exists text sources,
    v = result_dict text sources /\ Forall is_source_ref sources.

(** Every cached value is the result of a call of [verify_claim]. *)
Definition cache_ok (c : gmap string pyval) : Prop :=
  forall claim v, c !! claim = Some v -> is_verification_result v.

(** The title line 145 displays for a SourceRef. *)
Definition display_title (source : pyval) : pyval :=
  match source with
  | PDict [("uri", u); ("title", t)] => if truthy t then t else u
  | _ => PNone
  end.

Definition source_uri (source : pyval) : pyval :=
  match source with
  | PDict [("uri", u); ("title", _)] => u
  | _ => PNone
  end.

(** The bullet of line 146 for one SourceRef. *)
Definition bullet (py_str : pyval -> string) (source : pyval) : string :=
  "- **[" +:+ py_str (display_title source) +:+ "]("
  +:+ py_str (source_uri source) +:+ ")**" +:+ newline.

(** [str] on the values the examples display: [None], booleans,
    integers and strings. *)
Definition str_scalar (v : pyval) : string :=
  match v with
  | PNone => "None"
  | PBool true => "True"
  | PBool false => "False"
  | PInt z => pretty z
  | PStr s => s
  | _ => EmptyString
  end.

Definition new_process : process := {| cache := ∅; outside := fresh |}.

Definition new_session : session := {| screen := []; proc := new_process |}.

(** The bullets of lines 142-146 for a list of SourceRefs. *)
Definition bullets (py_str : pyval -> string) (sources : list pyval) : string :=
  fold_left (fun acc source => acc +:+ bullet py_str source) sources EmptyString.

(** What lines 137-151 draw under the text for a list of SourceRefs. *)
Definition sources_block (py_str : pyval -> string) (sources : list pyval)
  : list ui_call :=
  match sources with
  | [] => [Warning no_sources_warning]
  | _ :: _ =>
      [ Markdown (PStr "---");
        Subheader sources_heading;
        Markdown (PStr (bullets py_str sources));
        Caption sources_caption ]
  end.

(** The button pressed on a claim, and on an empty box. *)
Definition pressed (claim : string) : widgets :=
  {| claim_input := claim; clicked := true |}.

Definition untitled_source : pyval :=
  PDict [("uri", PStr "https://a"); ("title", PStr EmptyString)].

Definition titled_source : pyval :=
  PDict [("uri", PStr "https://b"); ("title", PStr "B")].

(** The candidates that send line 65 to its [else] branch without
    raising: a falsy candidate, or an object in which the path
    content / parts / first part / text stops at a missing key or ends
    on a falsy text. *)
Inductive lacks_text : pyval -> Prop :=
| lacks_falsy candidate :
    truthy candidate = false -> lacks_text candidate
| lacks_content c :
    c <> [] -> dict_lookup "content" c = None -> lacks_text (PDict c)
| lacks_parts c content :
    dict_lookup "content" c = Some (PDict content) ->
    dict_lookup "parts" content = None ->
    lacks_text (PDict c)
| lacks_part_text c content part parts t :
    dict_lookup "content" c = Some (PDict content) ->
    dict_lookup "parts" content = Some (PList (PDict part :: parts)) ->
    get (PDict part) "text" PNone = inr t ->
    truthy t = false ->
    lacks_text (PDict c).

(** The candidate has no grounding attributions to extract: no
    groundingMetadata key, or a metadata object without the
    groundingAttributions key. *)
Definition lacks_attributions (c : list (string * pyval)) : Prop :=
  dict_lookup "groundingMetadata" c = None \/
  exists gm,
    dict_lookup "groundingMetadata" c = Some (PDict gm) /\
    dict_lookup "groundingAttributions" gm = None.

(** A network that times out twice and then answers with an answer
    whose body is not JSON ([response.json()] raises a [ValueError]). *)
Definition garbled_response : response :=
  {| status_code := 200; reason := "OK"; url := API_URL;
     json_body := inl (Exn ValueError "Expecting value: line 1 column 1 (char 0)") |}.

Definition garbled_after_two : transport :=
  fun n _ =>
    if (n <? 2)%nat then inl (Exn RequestException "Read timed out")
    else inr garbled_response.

(** The same answer when [response.json()] raises the
    [requests.exceptions.JSONDecodeError] of recent versions of
    requests, a [RequestException]. *)
Definition undecodable_response : response :=
  {| status_code := 200; reason := "OK"; url := API_URL;
     json_body := inl (Exn RequestException "Expecting value: line 1 column 1 (char 0)") |}.

(** ** The retry loop *)

Section Loop.

Variable API_KEY : string.
Variable tr : transport.
Variable claim : string.

Let req : request := build_request API_KEY claim.

Lemma retry_loop_nil w : retry_loop API_KEY tr claim [] w = (PNone, w).
Proof. reflexivity. Qed.

(** An attempt before the last that fails retryably sleeps and goes on. *)
Lemma retry_loop_retry attempt rest w :
  retryable (tr (net_calls w) req) = true ->
  attempt < MAX_RETRIES - 1 ->
  retry_loop API_KEY tr claim (attempt :: rest) w =
  retry_loop API_KEY tr claim rest
    {| net_calls := S (net_calls w);
       trace := trace w ++ [EvPost req; EvSleep (2 ^ attempt)] |}.
Proof.
  intros Hr Hlt. unfold retryable in Hr. cbn [retry_loop requests_post].
  fold req. destruct (try_block (tr (net_calls w) req)) as [e|v]; [|discriminate].
  rewrite Hr. apply Z.ltb_lt in Hlt. rewrite Hlt.
  cbn [time_sleep net_calls trace]. rewrite <- app_assoc. reflexivity.
Qed.

(** Any other attempt ends the run with [final_value]. *)
Lemma retry_loop_stop attempt rest w :
  retryable (tr (net_calls w) req) = false \/ MAX_RETRIES - 1 <= attempt ->
  retry_loop API_KEY tr claim (attempt :: rest) w =
  (final_value (try_block (tr (net_calls w) req)),
   {| net_calls := S (net_calls w); trace := trace w ++ [EvPost req] |}).
Proof.
  intros H. unfold retryable in H. cbn [retry_loop requests_post].
  fold req. unfold final_value.
  destruct (try_block (tr (net_calls w) req)) as [e|v]; [|reflexivity].
  destruct (is_request_exception e); [|reflexivity].
  destruct H as [H|H]; [discriminate|].
  apply Z.ltb_ge in H. rewrite H. reflexivity.
Qed.

(** The loop over the attempts [a, a+1, ..., 4]: it retries [k] times
    and ends on attempt [a + k]. *)
Lemma retry_loop_from m : forall a w,
  (a + m = 5)%nat -> (0 < m)%nat ->
  exists k : nat,
    (a + k <= 4)%nat /\
    (forall i, (i < k)%nat -> retryable (tr (i + net_calls w)%nat req) = true) /\
    ((a + k < 4)%nat -> retryable (tr (k + net_calls w)%nat req) = false) /\
    retry_loop API_KEY tr claim (map Z.of_nat (seq a m)) w =
      (final_value (try_block (tr (k + net_calls w)%nat req)),
       {| net_calls := S k + net_calls w;
          trace := trace w ++ schedule_from req a k |}).
Proof.
  induction m as [|m IH]; intros a w Hsum Hpos; [lia|].
  cbn [seq map].
  destruct (retryable (tr (net_calls w) req)) eqn:Hr.
  - destruct (Nat.eq_dec m 0%nat) as [->|Hm].
    + exists 0%nat. repeat split; try lia.
      rewrite retry_loop_stop by (right; unfold MAX_RETRIES; lia).
      reflexivity.
    + rewrite retry_loop_retry by (trivial || (unfold MAX_RETRIES; lia)).
      destruct (IH (S a)
                  {| net_calls := S (net_calls w);
                     trace := trace w ++ [EvPost req; EvSleep (2 ^ Z.of_nat a)] |})
        as (k & Hk & Hretried & Hlast & Hrun); try lia.
      cbn [net_calls trace] in *.
      exists (S k). repeat split; try lia.
      * intros [|i] Hi; [exact Hr|].
        specialize (Hretried i ltac:(lia)).
        now rewrite Nat.add_succ_r in Hretried.
      * intros Hlt. rewrite Nat.add_succ_r in Hlast. apply Hlast. lia.
      * rewrite Hrun, !Nat.add_succ_r, <- app_assoc. reflexivity.
  - exists 0%nat. repeat split; try lia.
    + intros _. exact Hr.
    + rewrite retry_loop_stop by (left; exact Hr). reflexivity.
Qed.

(** Every run of [verify_claim]: [k <= 4] retried attempts, then the
    attempt that ends it. *)
Lemma verify_claim_run w :
  exists k : nat,
    (k <= 4)%nat /\
    (forall i, (i < k)%nat -> retryable (tr (i + net_calls w)%nat req) = true) /\
    ((k < 4)%nat -> retryable (tr (k + net_calls w)%nat req) = false) /\
    verify_claim API_KEY tr claim w =
      (final_value (try_block (tr (k + net_calls w)%nat req)),
       {| net_calls := S k + net_calls w;
          trace := trace w ++ schedule req k |}).
Proof.
  destruct (retry_loop_from 5 0%nat w) as (k & H); try lia.
  exists k. exact H.
Qed.

End Loop.

(** ** Parsing the body *)

(** No operation on Python values raises a [RequestException]. *)
Lemma get_not_request v k dflt e :
  get v k dflt = inl e -> is_request_exception e = false.
Proof.
  destruct v; cbn; try (intros [= <-]; reflexivity).
  destruct (dict_lookup k d); discriminate.
Qed.

Lemma index0_not_request v e :
  index0 v = inl e -> is_request_exception e = false.
Proof.
  destruct v as [| | | |s|l|d]; cbn; try (intros [= <-]; reflexivity).
  - destruct s; [intros [= <-]; reflexivity | discriminate].
  - destruct l; [intros [= <-]; reflexivity | discriminate].
Qed.

Lemma getitem_not_request v k e :
  getitem v k = inl e -> is_request_exception e = false.
Proof.
  destruct v; cbn; try (intros [= <-]; reflexivity).
  destruct (dict_lookup k d); [discriminate | intros [= <-]; reflexivity].
Qed.

Lemma contains_not_request k v e :
  contains k v = inl e -> is_request_exception e = false.
Proof. destruct v; cbn; try discriminate; intros [= <-]; reflexivity. Qed.

Lemma iter_not_request v e :
  iter v = inl e -> is_request_exception e = false.
Proof. destruct v; cbn; try discriminate; intros [= <-]; reflexivity. Qed.

(** Inversion of a [bind] that raised. *)
Lemma bind_inl {A B} (m : exc A) (k : A -> exc B) e :
  bind m k = inl e -> m = inl e \/ exists a, m = inr a /\ k a = inl e.
Proof. destruct m as [e'|a]; cbn; [intros [= ->]; auto | eauto]. Qed.

Lemma bind_inr {A B} (m : exc A) (k : A -> exc B) b :
  bind m k = inr b -> exists a, m = inr a /\ k a = inr b.
Proof. destruct m as [e'|a]; cbn; [discriminate | eauto]. Qed.

Create HintDb pyexn.
#[local] Hint Resolve get_not_request index0_not_request getitem_not_request
  contains_not_request iter_not_request : pyexn.

(** Case analysis on where a chain of binds raised. *)
Ltac raised H :=
  cbn beta in H;
  lazymatch type of H with
  | bind _ _ = inl _ =>
      apply bind_inl in H; destruct H as [H | (? & ? & H)];
      [raised H | raised H]
  | (if ?b then _ else _) = inl _ => destruct b; raised H
  | and_then ?a _ = inl _ => unfold and_then in H; raised H
  | ret _ = inl _ => discriminate H
  | inr _ = inl _ => discriminate H
  | _ => eauto with pyexn
  end.

Lemma web_sources_not_request items : forall e,
  web_sources items = inl e -> is_request_exception e = false.
Proof.
  induction items as [|attr rest IH]; intros e H; cbn [web_sources] in H;
    [discriminate|].
  raised H.
Qed.

Lemma extract_sources_not_request candidate e :
  extract_sources candidate = inl e -> is_request_exception e = false.
Proof.
  unfold extract_sources. intros H. raised H.
  eauto using web_sources_not_request.
Qed.

Lemma process_result_not_request body e :
  process_result body = inl e -> is_request_exception e = false.
Proof.
  unfold process_result, first_candidate, candidate_text, text_of.
  intros H. raised H. eauto using extract_sources_not_request.
Qed.

(** When the condition of line 65 is truthy, line 66 reads the very
    value the condition found. *)
Lemma candidate_text_truthy candidate c :
  candidate_text candidate = inr c -> truthy c = true ->
  text_of candidate = inr c.
Proof.
  unfold candidate_text, and_then, text_of. intros H Hc.
  destruct (truthy candidate) eqn:Hcand; [|injection H as <-; congruence].
  destruct candidate as [| | | | | |d]; try discriminate.
  cbn in *. destruct (dict_lookup "content" d) as [content|]; cbn in *.
  - destruct content as [| | | | | |cd]; try discriminate.
    cbn in *. destruct (dict_lookup "parts" cd) as [parts|]; cbn in *.
    + destruct (index0 parts) as [e|part]; [discriminate|]. cbn in *.
      destruct part as [| | | | | |pd]; try discriminate.
      cbn in *. destruct (dict_lookup "text" pd) as [t|]; cbn in *.
      * exact H.
      * injection H as <-. discriminate.
    + injection H as <-. discriminate.
  - injection H as <-. discriminate.
Qed.

(** The two [return] statements of the [try] block. *)
Lemma process_result_returns body v :
  process_result body = inr v ->
  v = result_dict (PStr empty_candidate_text) [] \/
  exists candidate text sources,
    first_candidate body = inr candidate /\
    text_of candidate = inr text /\
    truthy text = true /\
    extract_sources candidate = inr sources /\
    v = result_dict text sources.
Proof.
  unfold process_result. intros H.
  apply bind_inr in H. destruct H as (candidate & Hcand & H).
  apply bind_inr in H. destruct H as (c & Hc & H).
  destruct (truthy c) eqn:Htruthy.
  - right. pose proof (candidate_text_truthy _ _ Hc Htruthy) as Htext.
    rewrite Htext in H. cbn in H.
    apply bind_inr in H. destruct H as (sources & Hsrc & H).
    injection H as <-. exists candidate, c, sources. auto.
  - left. injection H as <-. reflexivity.
Qed.

Lemma try_block_returns posted v :
  try_block posted = inr v ->
  v = result_dict (PStr empty_candidate_text) [] \/
  exists text sources,
    returned_by_success posted text sources /\ v = result_dict text sources.
Proof.
  unfold try_block, process_response. intros H.
  apply bind_inr in H. destruct H as (r & Hposted & H).
  apply bind_inr in H. destruct H as ([] & Hstatus & H).
  apply bind_inr in H. destruct H as (body & Hbody & H).
  apply process_result_returns in H.
  destruct H as [H | (candidate & text & sources & H1 & H2 & H3 & H4 & H5)];
    [left; exact H|].
  right. exists text, sources. split; [|exact H5].
  exists r, body, candidate. auto 10.
Qed.

(** The four [return] statements of [verify_claim]: every run ends in
    one of them. *)
Lemma verify_claim_returns API_KEY tr claim w :
  let req := build_request API_KEY claim in
  let v := fst (verify_claim API_KEY tr claim w) in
  exists k : nat, (k <= 4)%nat /\
    ((exists text sources,
        returned_by_success (tr (k + net_calls w)%nat req) text sources /\
        v = result_dict text sources) \/
     v = result_dict (PStr empty_candidate_text) [] \/
     (exists e, try_block (tr (k + net_calls w)%nat req) = inl e /\
        is_request_exception e = true /\ k = 4%nat /\
        v = result_dict (PStr (connect_failure_text e)) []) \/
     (exists e, try_block (tr (k + net_calls w)%nat req) = inl e /\
        is_request_exception e = false /\
        v = result_dict (PStr (unexpected_error_text e)) [])).
Proof.
  intros req v. subst v.
  destruct (verify_claim_run API_KEY tr claim w) as (k & Hk & _ & Hlast & Hrun).
  fold req in Hlast, Hrun. rewrite Hrun. cbn [fst].
  exists k. split; [exact Hk|].
  unfold retryable in Hlast. unfold final_value.
  destruct (try_block (tr (k + net_calls w)%nat req)) as [e|v] eqn:Htry.
  - destruct (is_request_exception e) eqn:He.
    + right. right. left. exists e. repeat split; trivial.
      destruct (Nat.eq_dec k 4%nat) as [->|Hne]; [reflexivity|].
      specialize (Hlast ltac:(lia)). discriminate.
    + right. right. right. exists e. auto.
  - apply try_block_returns in Htry. tauto.
Qed.

(** ** Retry bound and backoff *)

(** A transport-level failure sends the attempt to the
    [except RequestException] clause with that exception. *)
Lemma transport_failure_try_block posted e :
  transport_failure posted = Some e ->
  try_block posted = inl e /\ is_request_exception e = true.
Proof.
  destruct posted as [e'|r]; cbn.
  - destruct (is_request_exception e') eqn:He; [|discriminate].
    intros [= <-]. auto.
  - unfold process_response.
    destruct (raise_for_status r) as [e'|[]] eqn:Hs; [|discriminate].
    intros [= <-]. split; [reflexivity|].
    unfold raise_for_status in Hs.
    destruct ((400 <=? status_code r) && (status_code r <? 500));
      [injection Hs as <-; reflexivity|].
    destruct ((500 <=? status_code r) && (status_code r <? 600));
      [injection Hs as <-; reflexivity | discriminate].
Qed.

Lemma transport_failure_retryable posted :
  is_Some (transport_failure posted) -> retryable posted = true.
Proof.
  intros [e He]. apply transport_failure_try_block in He as [Htry Hreq].
  unfold retryable. now rewrite Htry.
Qed.

(** A run whose first four attempts are retried makes a fifth. *)
Lemma verify_claim_four_retries API_KEY tr claim w :
  let req := build_request API_KEY claim in
  (forall i, (i < 4)%nat -> retryable (tr (i + net_calls w)%nat req) = true) ->
  verify_claim API_KEY tr claim w =
    (final_value (try_block (tr (4 + net_calls w)%nat req)),
     {| net_calls := 5 + net_calls w;
        trace := trace w ++
          [EvPost req; EvSleep 1; EvPost req; EvSleep 2; EvPost req;
           EvSleep 4; EvPost req; EvSleep 8; EvPost req] |}).
Proof.
  intros req Hretried.
  destruct (verify_claim_run API_KEY tr claim w) as (k & Hk & _ & Hlast & Hrun).
  fold req in Hlast, Hrun.
  assert (k = 4%nat) as ->.
  { destruct (Nat.eq_dec k 4%nat) as [|Hne]; [assumption|].
    assert (k < 4)%nat as Hlt by lia.
    rewrite (Hretried k Hlt) in Hlast. specialize (Hlast Hlt). discriminate. }
  exact Hrun.
Qed.

(** C1 (as amended). Retry bound: when each of the five network
    attempts of a run raises a transport-level failure (the post raises
    a [RequestException], or the response has a status from 400 to 599,
    the statuses on which [raise_for_status] raises), [verify_claim]
    posts exactly five times (sleeping 1, 2, 4 and 8 in between), never
    a sixth, and returns the error result whose text names the 5
    attempts and carries [str(e)] of the last failure, with an empty
    sources list. *)
Theorem retry_bound API_KEY tr claim w :
  let req := build_request API_KEY claim in
  (forall i, (i < 5)%nat ->
     is_Some (transport_failure (tr (i + net_calls w)%nat req))) ->
  exists e,
    transport_failure (tr (4 + net_calls w)%nat req) = Some e /\
    verify_claim API_KEY tr claim w =
      (result_dict
         (PStr ("Error: Failed to connect to the verification service after 5 attempts. Details: "
                +:+ exn_str e)) [],
       {| net_calls := 5 + net_calls w;
          trace := trace w ++
            [EvPost req; EvSleep 1; EvPost req; EvSleep 2; EvPost req;
             EvSleep 4; EvPost req; EvSleep 8; EvPost req] |}) /\
    posts (trace (snd (verify_claim API_KEY tr claim w)))
      = (posts (trace w) + 5)%nat.
Proof.
  intros req Hfail.
  destruct (Hfail 4%nat ltac:(lia)) as [e He]. exists e. split; [exact He|].
  apply transport_failure_try_block in He as [Htry Hreq].
  rewrite (verify_claim_four_retries API_KEY tr claim w)
    by (intros i Hi; apply transport_failure_retryable, Hfail; lia).
  fold req. rewrite Htry. unfold final_value. rewrite Hreq.
  split; [reflexivity|].
  cbn [snd trace]. unfold posts. rewrite List.filter_app, length_app.
  reflexivity.
Qed.

Lemma retry_bound_witness :
  verify_claim "key" always_down "claim" fresh =
    (result_dict
       (PStr "Error: Failed to connect to the verification service after 5 attempts. Details: Connection refused")
       [],
     {| net_calls := 5;
        trace := let req := build_request "key" "claim" in
                 [EvPost req; EvSleep 1; EvPost req; EvSleep 2; EvPost req;
                  EvSleep 4; EvPost req; EvSleep 8; EvPost req] |}).
Proof.
  destruct (retry_bound "key" always_down "claim" fresh) as (e & He & Hrun & _).
  - intros i _. eexists. reflexivity.
  - injection He as <-. exact Hrun.
Defined.

(** C1 (as stated) fails: on a network whose every answer has the
    status 300, which is not a 2xx status, nothing is raised; the run
    posts once, never sleeps, and returns the parsed answer, not the
    error result after five attempts. *)
Lemma non_2xx_answers_single_post :
  let req := build_request "key" "claim" in
  let run := verify_claim "key" (always multiple_choices) "claim" fresh in
  (forall n, exists r,
     always multiple_choices n req = inr r /\
     ~ (200 <= status_code r < 300)) /\
  run = (result_dict (PStr "Analysis") [],
         {| net_calls := 1; trace := [EvPost req] |}) /\
  posts (trace (snd run)) <> 5%nat /\
  ~ (exists e, fst run = result_dict (PStr (connect_failure_text e)) []).
Proof.
  cbn zeta. split; [|split; [reflexivity|split]].
  - intros n. exists multiple_choices. split; [reflexivity | cbn; lia].
  - cbn. discriminate.
  - intros (e & H). cbn in H. discriminate H.
Qed.

(** C5. Backoff: in every run the events are a post, then for each
    retried attempt [i] (0-based) a sleep of [2^i] followed by the next
    post, and nothing else; in particular, when attempts 1-4 fail at
    transport level and the [try] block of attempt 5 returns [v], the
    run sleeps 1+2+4+8 = 15 before the fifth post and returns [v]. *)
Theorem backoff_schedule API_KEY tr claim w :
  let req := build_request API_KEY claim in
  let run := verify_claim API_KEY tr claim w in
  (exists k : nat, (k <= 4)%nat /\
     (forall i, (i < k)%nat -> retryable (tr (i + net_calls w)%nat req) = true) /\
     trace (snd run) =
       trace w
       ++ flat_map (fun i => [EvPost req; EvSleep (2 ^ Z.of_nat i)]) (seq 0 k)
       ++ [EvPost req]) /\
  (forall r v,
     (forall i, (i < 4)%nat ->
        is_Some (transport_failure (tr (i + net_calls w)%nat req))) ->
     tr (4 + net_calls w)%nat req = inr r ->
     process_response r = inr v ->
     let before := [EvPost req; EvSleep 1; EvPost req; EvSleep 2;
                    EvPost req; EvSleep 4; EvPost req; EvSleep 8] in
     fst run = v /\
     trace (snd run) = trace w ++ before ++ [EvPost req] /\
     posts before = 4%nat /\
     slept before = 15).
Proof.
  intros req run. subst run. split.
  - destruct (verify_claim_run API_KEY tr claim w) as (k & Hk & Hretried & _ & Hrun).
    exists k. rewrite Hrun. auto.
  - intros r v Hfail Hpost Hv before.
    rewrite (verify_claim_four_retries API_KEY tr claim w)
      by (intros i Hi; apply transport_failure_retryable, Hfail; lia).
    fold req. rewrite Hpost. cbn [try_block bind]. rewrite Hv.
    repeat split; reflexivity.
Qed.

Lemma backoff_schedule_witness :
  let req := build_request "key" "claim" in
  let run := verify_claim "key" flaky "claim" fresh in
  fst run = result_dict (PStr "Analysis") [] /\
  trace (snd run) =
    [EvPost req; EvSleep 1; EvPost req; EvSleep 2;
     EvPost req; EvSleep 4; EvPost req; EvSleep 8; EvPost req].
Proof.
  destruct (backoff_schedule "key" flaky "claim" fresh) as [_ H].
  destruct (H (ok_response (api_body (PStr "Analysis") []))
              (result_dict (PStr "Analysis") []))
    as (Hv & Htrace & _).
  - intros i Hi. do 4 (destruct i as [|i]; [eexists; reflexivity|]). lia.
  - reflexivity.
  - reflexivity.
  - split; [exact Hv | exact Htrace].
Defined.

(** A first attempt that is not retried is the only one. *)
Lemma verify_claim_single API_KEY tr claim w :
  let req := build_request API_KEY claim in
  retryable (tr (net_calls w) req) = false ->
  verify_claim API_KEY tr claim w =
    (final_value (try_block (tr (net_calls w) req)),
     {| net_calls := S (net_calls w); trace := trace w ++ [EvPost req] |}).
Proof.
  intros req Hr. unfold verify_claim.
  change (range MAX_RETRIES) with (0 :: map Z.of_nat (seq 1 4)).
  apply retry_loop_stop. left. exact Hr.
Qed.

(** The run reaches attempt [i] when all attempts before it were
    retried, and goes past it when it is retried too. *)
Lemma verify_claim_past API_KEY tr claim w i :
  let req := build_request API_KEY claim in
  (i < 4)%nat ->
  (forall j, (j <= i)%nat -> retryable (tr (j + net_calls w)%nat req) = true) ->
  exists rest,
    trace (snd (verify_claim API_KEY tr claim w)) =
      trace w
      ++ flat_map (fun j => [EvPost req; EvSleep (2 ^ Z.of_nat j)]) (seq 0 (S i))
      ++ EvPost req :: rest.
Proof.
  intros req Hi Hretried.
  destruct (verify_claim_run API_KEY tr claim w) as (k & Hk & _ & Hlast & Hrun).
  fold req in Hlast, Hrun. rewrite Hrun. cbn [snd trace].
  assert (i < k)%nat as Hik.
  { destruct (le_lt_dec k i) as [Hle|]; [|assumption].
    rewrite (Hretried k Hle) in Hlast. specialize (Hlast ltac:(lia)).
    discriminate. }
  unfold schedule, schedule_from.
  replace k with (S i + (k - S i))%nat by lia.
  rewrite seq_app, flat_map_app, <- app_assoc.
  destruct (k - S i)%nat as [|m]; cbn [seq flat_map app]; eauto.
Qed.




(** ** The shape of the returned value *)

(** C2 (as amended). Every run of [verify_claim], whatever the network
    and the body do, returns a dict [{"text": t, "sources": [...]}]
    whose sources value is a list; on every failure path [t] is a
    string, and on the success path [t] is, verbatim, the truthy value
    the body holds at [candidates[0].content.parts[0].text]. *)
Theorem always_returns_dict API_KEY tr claim w :
  let req := build_request API_KEY claim in
  exists text sources,
    fst (verify_claim API_KEY tr claim w) = result_dict text sources /\
    (is_str text = true \/
     exists k : nat, (k <= 4)%nat /\
       returned_by_success (tr (k + net_calls w)%nat req) text sources).
Proof.
  intros req.
  destruct (verify_claim_returns API_KEY tr claim w)
    as (k & Hk & [(text & sources & Hs & ->) | [-> | [(e & _ & _ & _ & ->) | (e & _ & _ & ->)]]]).
  - exists text, sources. split; [reflexivity|]. right. exists k. auto.
  - eexists _, _. split; [reflexivity|]. left. reflexivity.
  - eexists _, _. split; [reflexivity|]. left. reflexivity.
  - eexists _, _. split; [reflexivity|]. left. reflexivity.
Qed.

(** C2 (as stated) fails: a 200 answer whose text part holds the number
    42 makes [verify_claim] return 42 as the text, which is no string. *)
Lemma numeric_text_returned :
  let run := verify_claim "key" (always (ok_response (api_body (PInt 42) [])))
               "claim" fresh in
  fst run = result_dict (PInt 42) [] /\
  ~ (exists s sources, fst run = result_dict (PStr s) sources).
Proof.
  cbn zeta. split; [reflexivity|].
  intros (s & sources & H). discriminate H.
Qed.

(** C9. Every value [verify_claim] returns is a dict with exactly the
    keys text and sources.  It comes either from the success path, or
    from one of the three other [return] statements (empty candidate,
    retries exhausted, unexpected error), whose sources value is the
    empty list; so a non-empty sources list comes from the success path
    only. *)
Theorem result_keys_and_sources API_KEY tr claim w :
  let req := build_request API_KEY claim in
  let v := fst (verify_claim API_KEY tr claim w) in
  keys v = Some ["text"; "sources"] /\
  exists text sources,
    v = result_dict text sources /\
    ((exists k : nat, (k <= 4)%nat /\
        returned_by_success (tr (k + net_calls w)%nat req) text sources) \/
     (sources = [] /\
      (text = PStr "Error: Model returned an empty response candidate." \/
       (exists e, text = PStr (connect_failure_text e)) \/
       (exists e, text = PStr (unexpected_error_text e))))) /\
    (sources <> [] ->
     exists k : nat, (k <= 4)%nat /\
       returned_by_success (tr (k + net_calls w)%nat req) text sources).
Proof.
  intros req v. subst v.
  destruct (verify_claim_returns API_KEY tr claim w)
    as (k & Hk & [(text & sources & Hs & ->) | [-> | [(e & _ & _ & _ & ->) | (e & _ & _ & ->)]]]).
  - split; [reflexivity|]. exists text, sources. split; [reflexivity|].
    split; [left|intros _]; exists k; auto.
  - split; [reflexivity|]. eexists _, _. split; [reflexivity|].
    split; [right; auto | congruence].
  - split; [reflexivity|]. eexists _, _. split; [reflexivity|].
    split; [right; eauto | congruence].
  - split; [reflexivity|]. eexists _, _. split; [reflexivity|].
    split; [right; eauto | congruence].
Qed.

(** ** Parsed answers *)

(** A first answer that passes [raise_for_status] and parses ends the
    run after one post, with what lines 63-81 make of its body. *)
Lemma verify_claim_parsed API_KEY tr claim w r body :
  let req := build_request API_KEY claim in
  tr (net_calls w) req = inr r ->
  raise_for_status r = inr tt ->
  json_body r = inr body ->
  verify_claim API_KEY tr claim w =
    (final_value (process_result body),
     {| net_calls := S (net_calls w); trace := trace w ++ [EvPost req] |}).
Proof.
  intros req Hpost Hstatus Hbody.
  assert (try_block (tr (net_calls w) req) = process_result body) as Htry.
  { rewrite Hpost. cbn. unfold process_response.
    rewrite Hstatus. cbn. rewrite Hbody. reflexivity. }
  rewrite (verify_claim_single API_KEY tr claim w); fold req.
  - rewrite Htry. reflexivity.
  - unfold retryable. rewrite Htry.
    destruct (process_result body) as [e|v] eqn:Hp; [|reflexivity].
    eapply process_result_not_request, Hp.
Qed.

Lemma raise_for_status_200 r : status_code r = 200 -> raise_for_status r = inr tt.
Proof. unfold raise_for_status. intros ->. reflexivity. Qed.

(** An exception raised by line 63 goes to the [except Exception]
    clause. *)
Lemma first_candidate_raises body e :
  first_candidate body = inl e ->
  final_value (process_result body) =
    result_dict (PStr (unexpected_error_text e)) [].
Proof.
  intros H. unfold process_result. rewrite H. cbn.
  unfold first_candidate in H. raised H.
  all: first [ apply get_not_request in H | apply index0_not_request in H ];
    rewrite H; reflexivity.
Qed.

Lemma lacks_text_cond candidate :
  lacks_text candidate ->
  exists c', candidate_text candidate = inr c' /\ truthy c' = false.
Proof.
  unfold candidate_text, and_then.
  intros [cand Hfalsy | c Hne Hcontent | c content Hcontent Hparts
          | c content part parts t Hcontent Hparts Htext Ht].
  - rewrite Hfalsy. eauto.
  - destruct c as [|kv c']; [congruence|]. cbn [truthy].
    remember (kv :: c') as c. cbn. rewrite Hcontent. cbn. eauto.
  - destruct c as [|kv c']; [discriminate|]. cbn [truthy].
    remember (kv :: c') as c. cbn. rewrite Hcontent. cbn. rewrite Hparts.
    cbn. eauto.
  - destruct c as [|kv c']; [discriminate|]. cbn [truthy].
    remember (kv :: c') as c. cbn [get bind ret]. rewrite Hcontent.
    cbn [get bind ret]. rewrite Hparts. cbn [bind ret index0].
    rewrite Htext. eauto.
Qed.




(** C4. The code at the input of the claim: a 200 answer whose
    candidates list is empty raises [IndexError] at [[0]] on line 63,
    and the run returns the unexpected-error text (not the fixed
    empty-candidate message), with no sources, after one post. *)
Theorem empty_candidates_unexpected API_KEY claim w :
  let req := build_request API_KEY claim in
  verify_claim API_KEY (always (ok_response no_candidates)) claim w =
    (result_dict
       (PStr "An unexpected error occurred during API processing: list index out of range")
       [],
     {| net_calls := S (net_calls w); trace := trace w ++ [EvPost req] |}).
Proof.
  intros req.
  rewrite (verify_claim_parsed API_KEY _ claim w (ok_response no_candidates)
             no_candidates); reflexivity.
Qed.

(** ** Grounding sources *)

(** On attribution records that carry a title with every non-empty uri,
    the comprehension of lines 73-76 is a filter followed by a map. *)
Lemma web_sources_ok items :
  forallb attr_ok items = true ->
  web_sources items = inr (map source_ref (List.filter has_web_uri items)).
Proof.
  induction items as [|attr rest IH]; [reflexivity|].
  cbn [forallb]. intros Hok. apply andb_prop in Hok as [Hattr Hrest].
  specialize (IH Hrest). cbn [web_sources List.filter].
  destruct attr as [| | | | | |d]; try discriminate.
  unfold attr_ok in Hattr. unfold has_web_uri at 1.
  cbn [contains getitem get bind ret].
  destruct (dict_lookup "web" d) as [web|] eqn:Hweb; cbn; [|exact IH].
  destruct web as [| | | | | |wd]; try discriminate. cbn.
  destruct (dict_lookup "uri" wd) as [u|] eqn:Huri; cbn; [|exact IH].
  destruct (truthy u); cbn; [|exact IH].
  destruct (dict_lookup "title" wd) as [t|] eqn:Htitle; [|discriminate].
  cbn. rewrite IH, Hweb, Huri, Htitle. reflexivity.
Qed.

Lemma process_result_api_body text attrs :
  truthy text = true ->
  forallb attr_ok attrs = true ->
  process_result (api_body text attrs) =
    inr (result_dict text (map source_ref (List.filter has_web_uri attrs))).
Proof.
  intros Htext Hok. unfold process_result. cbn.
  unfold candidate_text, and_then. cbn. rewrite Htext. cbn.
  unfold extract_sources, and_then. cbn.
  destruct attrs as [|attr rest]; [reflexivity|].
  cbn [truthy iter bind ret]. cbv beta.
  rewrite (web_sources_ok _ Hok). reflexivity.
Qed.

Lemma raise_for_status_2xx r :
  200 <= status_code r < 300 -> raise_for_status r = inr tt.
Proof.
  intros H. unfold raise_for_status.
  replace (status_code r <? 500) with true by (symmetry; apply Z.ltb_lt; lia).
  replace (400 <=? status_code r) with false by (symmetry; apply Z.leb_gt; lia).
  replace (500 <=? status_code r) with false by (symmetry; apply Z.leb_gt; lia).
  reflexivity.
Qed.

(** C3. The code at the example of the claim: the first attribution has
    a web object with a uri and no title, so [attr['web']['title']]
    raises [KeyError] and the run returns the unexpected-error text with
    no sources at all, not the two SourceRefs of the claim. *)
Theorem missing_title_unexpected API_KEY claim w :
  let req := build_request API_KEY claim in
  let body := api_body (PStr "Analysis") mixed_attributions in
  web_sources mixed_attributions = inl (Exn KeyError "'title'") /\
  verify_claim API_KEY (always (ok_response body)) claim w =
    (result_dict
       (PStr "An unexpected error occurred during API processing: 'title'") [],
     {| net_calls := S (net_calls w); trace := trace w ++ [EvPost req] |}).
Proof.
  intros req body. split; [reflexivity|].
  rewrite (verify_claim_parsed API_KEY _ claim w (ok_response body) body);
    reflexivity.
Qed.




(** ** Memoisation *)

(** Once a claim is in the cache, it stays there with the same value. *)
Lemma run_calls_keeps API_KEY tr claims : forall p claim v,
  cache p !! claim = Some v ->
  cache (run_calls API_KEY tr claims p) !! claim = Some v.
Proof.
  induction claims as [|c rest IH]; intros p claim v Hhit; [exact Hhit|].
  cbn [run_calls]. apply IH.
  unfold verify_claim_cached, cache_data.
  destruct (cache p !! c) as [v'|] eqn:Hc; [exact Hhit|].
  destruct (verify_claim API_KEY tr c (outside p)) as [v' w']. cbn.
  rewrite lookup_insert_ne; [exact Hhit|].
  intros ->. congruence.
Qed.

(** A call leaves its claim in the cache with the value it returns. *)
Lemma verify_claim_cached_stores API_KEY tr claim p :
  cache (snd (verify_claim_cached API_KEY tr claim p)) !! claim
  = Some (fst (verify_claim_cached API_KEY tr claim p)).
Proof.
  unfold verify_claim_cached, cache_data.
  destruct (cache p !! claim) as [v|] eqn:Hc; [exact Hc|].
  destruct (verify_claim API_KEY tr claim (outside p)) as [v w']. cbn.
  apply lookup_insert_eq.
Qed.

(** C7. Memoisation: after a first call for a claim, in whatever state
    of the process and whatever other calls are made in between, a
    later call for the same claim returns the value of the first call
    and leaves the process as it was: no post, no sleep, the cache
    unchanged. *)
Theorem memoized_second_call API_KEY tr claim others p :
  let first := verify_claim_cached API_KEY tr claim p in
  let later := run_calls API_KEY tr others (snd first) in
  verify_claim_cached API_KEY tr claim later = (fst first, later) /\
  verify_claim_cached API_KEY tr claim (snd first) = (fst first, snd first).
Proof.
  intros first later.
  pose proof (verify_claim_cached_stores API_KEY tr claim p) as Hstored.
  fold first in Hstored. split.
  - pose proof (run_calls_keeps API_KEY tr others _ _ _ Hstored) as Hkept.
    fold later in Hkept.
    unfold verify_claim_cached, cache_data at 1. now rewrite Hkept.
  - unfold verify_claim_cached, cache_data at 1.
    unfold verify_claim_cached in first. fold first. now rewrite Hstored.
Qed.

(** ** More on the retry loop *)

(** The run ends on attempt [i] when the attempts before it were
    retried and it is the fifth or is not retried itself. *)
Lemma verify_claim_ends_at API_KEY tr claim w i :
  let req := build_request API_KEY claim in
  (i <= 4)%nat ->
  (forall j, (j < i)%nat -> retryable (tr (j + net_calls w)%nat req) = true) ->
  ((i < 4)%nat -> retryable (tr (i + net_calls w)%nat req) = false) ->
  verify_claim API_KEY tr claim w =
    (final_value (try_block (tr (i + net_calls w)%nat req)),
     {| net_calls := S i + net_calls w; trace := trace w ++ schedule req i |}).
Proof.
  intros req Hi Hbefore Hstop.
  destruct (verify_claim_run API_KEY tr claim w) as (k & Hk & Hretried & Hlast & Hrun).
  fold req in Hretried, Hlast, Hrun.
  assert (k = i) as ->; [|exact Hrun].
  destruct (lt_eq_lt_dec k i) as [[Hlt|Heq]|Hgt]; [|exact Heq|].
  - rewrite (Hbefore k Hlt) in Hlast. specialize (Hlast ltac:(lia)). discriminate.
  - rewrite (Hretried i Hgt) in Hstop. specialize (Hstop ltac:(lia)). discriminate.
Qed.

Lemma posts_schedule req k : posts (schedule req k) = S k.
Proof.
  unfold schedule, schedule_from, posts. generalize 0%nat as a.
  induction k as [|k IH]; intros a; [reflexivity|].
  cbn [seq flat_map app List.filter length]. now rewrite IH.
Qed.

Lemma slept_schedule_from req k : forall a,
  slept (schedule_from req a k) = 2 ^ Z.of_nat (a + k) - 2 ^ Z.of_nat a.
Proof.
  unfold schedule_from, slept.
  induction k as [|k IH]; intros a.
  - cbn. rewrite Nat.add_0_r. lia.
  - cbn [seq flat_map app fold_right]. rewrite IH.
    replace (Z.of_nat (S a + k)) with (Z.of_nat (a + S k)) by lia.
    replace (Z.of_nat (S a)) with (Z.of_nat a + 1) by lia.
    rewrite Z.pow_add_r by lia. lia.
Qed.

(** X1. Whatever the network does, a run of [verify_claim] posts at
    least once and at most five times, sleeps [2^(posts-1) - 1], so at
    most 15, in total, and adds its posts to the count of calls. *)
Theorem run_bounds API_KEY tr claim w :
  let w' := snd (verify_claim API_KEY tr claim w) in
  exists evs,
    trace w' = trace w ++ evs /\
    (1 <= posts evs <= 5)%nat /\
    slept evs = 2 ^ Z.of_nat (posts evs - 1) - 1 /\
    0 <= slept evs <= 15 /\
    net_calls w' = (posts evs + net_calls w)%nat.
Proof.
  intros w'. subst w'.
  destruct (verify_claim_run API_KEY tr claim w) as (k & Hk & _ & _ & Hrun).
  rewrite Hrun. cbn [snd trace net_calls].
  exists (schedule (build_request API_KEY claim) k).
  rewrite posts_schedule. unfold schedule. rewrite slept_schedule_from.
  replace (S k - 1)%nat with k by lia. cbn [Nat.add Z.of_nat Z.pow].
  assert (1 <= 2 ^ Z.of_nat k <= 2 ^ 4) as Hpow.
  { split; [|apply Z.pow_le_mono_r; lia].
    pose proof (Z.pow_pos_nonneg 2 (Z.of_nat k)). lia. }
  change (2 ^ 4) with 16 in Hpow.
  repeat split; try lia.
Qed.

(** X2. Every post of a run carries the same request, the one built
    from the claim: a retry never sends anything else. *)
Theorem same_request_every_attempt API_KEY tr claim w :
  exists evs,
    trace (snd (verify_claim API_KEY tr claim w)) = trace w ++ evs /\
    Forall (fun ev => match ev with
                      | EvPost r => r = build_request API_KEY claim
                      | EvSleep _ => True
                      end) evs.
Proof.
  destruct (verify_claim_run API_KEY tr claim w) as (k & _ & _ & _ & Hrun).
  rewrite Hrun. clear Hrun. cbn [snd trace].
  exists (schedule (build_request API_KEY claim) k). split; [reflexivity|].
  unfold schedule, schedule_from. generalize 0%nat as a.
  induction k as [|k IH]; intros a; cbn [seq flat_map app].
  - repeat constructor.
  - constructor; [reflexivity|]. constructor; [exact I|]. apply IH.
Qed.

(** X3. The run stops at the first attempt that is not retried: when
    the [i] attempts before it end in the [except RequestException]
    clause and the [try] block of attempt [i] returns [v], the run
    returns [v] after [i + 1] posts and the sleeps 1, 2, ..., 2^(i-1). *)
Theorem first_success_ends_run API_KEY tr claim w i v :
  let req := build_request API_KEY claim in
  (i <= 4)%nat ->
  (forall j, (j < i)%nat -> retryable (tr (j + net_calls w)%nat req) = true) ->
  try_block (tr (i + net_calls w)%nat req) = inr v ->
  verify_claim API_KEY tr claim w =
    (v, {| net_calls := S i + net_calls w;
           trace := trace w
             ++ flat_map (fun j => [EvPost req; EvSleep (2 ^ Z.of_nat j)]) (seq 0 i)
             ++ [EvPost req] |}).
Proof.
  intros req Hi Hbefore Htry.
  rewrite (verify_claim_ends_at API_KEY tr claim w i Hi Hbefore).
  - fold req. rewrite Htry. reflexivity.
  - intros _. unfold retryable. fold req. now rewrite Htry.
Qed.

Lemma first_success_ends_run_witness :
  let req := build_request "key" "claim" in
  verify_claim "key" flaky "claim" fresh =
    (result_dict (PStr "Analysis") [],
     {| net_calls := 5;
        trace := [EvPost req; EvSleep 1; EvPost req; EvSleep 2; EvPost req;
                  EvSleep 4; EvPost req; EvSleep 8; EvPost req] |}).
Proof.
  apply (first_success_ends_run "key" flaky "claim" fresh 4).
  - lia.
  - intros j Hj. do 4 (destruct j as [|j]; [reflexivity|]). lia.
  - reflexivity.
Defined.

(** X4. An exception that is no [RequestException], raised by the post
    or by [response.json()] on any attempt the run reaches, is not
    retried: the run ends there with the unexpected-error text built
    from [str(e)] and no sources. *)
Theorem other_exception_not_retried API_KEY tr claim w i e :
  let req := build_request API_KEY claim in
  (i <= 4)%nat ->
  (forall j, (j < i)%nat -> retryable (tr (j + net_calls w)%nat req) = true) ->
  tr (i + net_calls w)%nat req = inl e \/
  (exists r, tr (i + net_calls w)%nat req = inr r /\
             raise_for_status r = inr tt /\ json_body r = inl e) ->
  is_request_exception e = false ->
  verify_claim API_KEY tr claim w =
    (result_dict
       (PStr ("An unexpected error occurred during API processing: " +:+ exn_str e))
       [],
     {| net_calls := S i + net_calls w;
        trace := trace w
          ++ flat_map (fun j => [EvPost req; EvSleep (2 ^ Z.of_nat j)]) (seq 0 i)
          ++ [EvPost req] |}).
Proof.
  intros req Hi Hbefore Hraise He.
  assert (try_block (tr (i + net_calls w)%nat req) = inl e) as Htry.
  { destruct Hraise as [-> | (r & -> & Hs & Hj)]; [reflexivity|].
    cbn. unfold process_response. rewrite Hs. cbn. now rewrite Hj. }
  rewrite (verify_claim_ends_at API_KEY tr claim w i Hi Hbefore).
  - fold req. rewrite Htry. unfold final_value. rewrite He. reflexivity.
  - intros _. unfold retryable. fold req. now rewrite Htry.
Qed.

Lemma other_exception_not_retried_witness :
  let req := build_request "key" "claim" in
  verify_claim "key" garbled_after_two "claim" fresh =
    (result_dict
       (PStr "An unexpected error occurred during API processing: Expecting value: line 1 column 1 (char 0)")
       [],
     {| net_calls := 3;
        trace := [EvPost req; EvSleep 1; EvPost req; EvSleep 2; EvPost req] |}).
Proof.
  apply (other_exception_not_retried "key" garbled_after_two "claim" fresh 2
           (Exn ValueError "Expecting value: line 1 column 1 (char 0)")).
  - lia.
  - intros j Hj. do 2 (destruct j as [|j]; [reflexivity|]). lia.
  - right. exists garbled_response. repeat split; reflexivity.
  - reflexivity.
Defined.

(** X5. A [RequestException] raised by [response.json()] on an answer
    that passed [raise_for_status] lands in the same [except] clause as
    a failed post: before the fifth attempt the run sleeps [2^i] and
    posts again. *)
Theorem undecodable_body_retried API_KEY tr claim w i r e :
  let req := build_request API_KEY claim in
  (i < 4)%nat ->
  (forall j, (j < i)%nat -> retryable (tr (j + net_calls w)%nat req) = true) ->
  tr (i + net_calls w)%nat req = inr r ->
  raise_for_status r = inr tt ->
  json_body r = inl e ->
  is_request_exception e = true ->
  exists rest,
    trace (snd (verify_claim API_KEY tr claim w)) =
      trace w
      ++ flat_map (fun j => [EvPost req; EvSleep (2 ^ Z.of_nat j)]) (seq 0 i)
      ++ [EvPost req; EvSleep (2 ^ Z.of_nat i); EvPost req] ++ rest.
Proof.
  intros req Hi Hbefore Hpost Hstatus Hjson He.
  assert (retryable (tr (i + net_calls w)%nat req) = true) as Hretry.
  { unfold retryable. rewrite Hpost. cbn. unfold process_response.
    rewrite Hstatus. cbn. rewrite Hjson. exact He. }
  destruct (verify_claim_past API_KEY tr claim w i Hi) as (rest & Hrest).
  { intros j Hj. destruct (Nat.eq_dec j i) as [->|]; [exact Hretry|].
    apply Hbefore. lia. }
  exists rest. fold req in Hrest. rewrite Hrest.
  rewrite seq_S, flat_map_app, <- app_assoc. reflexivity.
Qed.

Lemma undecodable_body_retried_witness :
  exists rest,
    trace (snd (verify_claim "key" (always undecodable_response) "claim" fresh)) =
      let req := build_request "key" "claim" in
      [EvPost req; EvSleep 1; EvPost req] ++ rest.
Proof.
  apply (undecodable_body_retried "key" (always undecodable_response) "claim"
           fresh 0 undecodable_response
           (Exn RequestException "Expecting value: line 1 column 1 (char 0)")).
  - lia.
  - intros j Hj. lia.
  - reflexivity.
  - reflexivity.
  - reflexivity.
  - reflexivity.
Defined.

(** ** More on the parsed answer *)

Lemma bind_ret {A} (m : exc A) : bind m ret = m.
Proof. destruct m; reflexivity. Qed.

(** What the comprehension of lines 73-76 builds is a list of
    SourceRefs. *)
Lemma web_sources_shape items : forall l,
  web_sources items = inr l -> Forall is_source_ref l.
Proof.
  induction items as [|attr rest IH]; intros l H; cbn [web_sources] in H.
  - injection H as <-. constructor.
  - apply bind_inr in H as (has_web & Hweb & H).
    apply bind_inr in H as (keep & Hkeep & H).
    destruct keep; [|eauto].
    destruct has_web; [|discriminate].
    apply bind_inr in Hkeep as (web & Hw & Hkeep).
    apply bind_inr in Hkeep as (uri & Hu & Hkeep).
    injection Hkeep as Htruthy.
    rewrite Hw in H. cbn [bind] in H.
    apply bind_inr in H as (uri' & Hu' & H).
    apply bind_inr in H as (title & Ht & H).
    apply bind_inr in H as (tail & Htail & H).
    injection H as <-.
    constructor; [|eauto].
    exists uri', title. split; [reflexivity|].
    destruct web as [| | | | | |wd]; try discriminate.
    cbn in Hu, Hu'. destruct (dict_lookup "uri" wd); [|discriminate].
    congruence.
Qed.

Lemma extract_sources_shape candidate l :
  extract_sources candidate = inr l -> Forall is_source_ref l.
Proof.
  unfold extract_sources. intros H.
  apply bind_inr in H as (gm & _ & H).
  apply bind_inr in H as (attributions & _ & H).
  destruct (truthy attributions); [|injection H as <-; constructor].
  apply bind_inr in H as (sources & _ & H).
  apply bind_inr in H as (items & _ & H).
  eapply web_sources_shape, H.
Qed.

Lemma verify_claim_is_result API_KEY tr claim w :
  is_verification_result (fst (verify_claim API_KEY tr claim w)).
Proof.
  destruct (verify_claim_returns API_KEY tr claim w)
    as (k & _ & [(text & sources & Hs & ->) | [-> | [(e & _ & _ & _ & ->) | (e & _ & _ & ->)]]]).
  - exists text, sources. split; [reflexivity|].
    destruct Hs as (r & body & candidate & _ & _ & _ & _ & _ & _ & Hsrc).
    exact (extract_sources_shape _ _ Hsrc).
  - eexists _, _. split; [reflexivity | constructor].
  - eexists _, _. split; [reflexivity | constructor].
  - eexists _, _. split; [reflexivity | constructor].
Qed.

(** X6. Whatever the network answers, [verify_claim] returns a dict
    [{"text": ..., "sources": [...]}] in which every source is a dict
    with exactly the keys uri and title and a truthy uri. *)
Theorem sources_are_source_refs API_KEY tr claim w :
  exists text sources,
    fst (verify_claim API_KEY tr claim w) = result_dict text sources /\
    Forall (fun s => exists u t,
              s = PDict [("uri", u); ("title", t)] /\ truthy u = true)
           sources.
Proof. exact (verify_claim_is_result API_KEY tr claim w). Qed.

(** One well-formed attribution at the head of the list. *)
Lemma web_sources_cons_ok attr rest :
  attr_ok attr = true ->
  web_sources (attr :: rest) =
    (let* tail := web_sources rest in
     ret ((if has_web_uri attr then [source_ref attr] else []) ++ tail)).
Proof.
  intros Hattr. cbn [web_sources].
  destruct attr as [| | | | | |d]; try discriminate.
  unfold attr_ok in Hattr. unfold has_web_uri, source_ref.
  cbn [contains getitem get bind ret].
  destruct (dict_lookup "web" d) as [web|] eqn:Hweb; cbn;
    [|now rewrite bind_ret].
  destruct web as [| | | | | |wd]; try discriminate. cbn.
  destruct (dict_lookup "uri" wd) as [u|] eqn:Huri; cbn;
    [|now rewrite bind_ret].
  destruct (truthy u); cbn; [|now rewrite bind_ret].
  destruct (dict_lookup "title" wd) as [t|] eqn:Htitle; [|discriminate].
  reflexivity.
Qed.

(** A kept attribution without a title stops the comprehension. *)
Lemma web_sources_untitled pre d wd u post :
  forallb attr_ok pre = true ->
  dict_lookup "web" d = Some (PDict wd) ->
  dict_lookup "uri" wd = Some u ->
  truthy u = true ->
  dict_lookup "title" wd = None ->
  web_sources (pre ++ PDict d :: post) = inl (Exn KeyError "'title'").
Proof.
  intros Hpre Hweb Huri Hu Htitle.
  induction pre as [|attr pre IH].
  - cbn [app web_sources contains getitem get bind ret].
    rewrite Hweb. cbn. rewrite Huri. cbn. rewrite Hu. cbn.
    rewrite Htitle. reflexivity.
  - cbn [forallb] in Hpre. apply andb_prop in Hpre as [Hattr Hpre].
    cbn [app]. rewrite (web_sources_cons_ok _ _ Hattr), (IH Hpre).
    reflexivity.
Qed.



(** Line 65 finds the text that line 66 reads. *)
Lemma text_of_candidate_text c t :
  text_of (PDict c) = inr t ->
  candidate_text (PDict c) = inr t.
Proof.
  unfold text_of, candidate_text, and_then. intros H.
  destruct c as [|kv c']; [discriminate|]. cbn [truthy].
  remember (kv :: c') as c. clear Heqc. cbn in *.
  destruct (dict_lookup "content" c) as [content|]; [|discriminate]. cbn in *.
  destruct content as [| | | | | |cd]; try discriminate. cbn in *.
  destruct (dict_lookup "parts" cd) as [parts|]; [|discriminate]. cbn in *.
  destruct (index0 parts) as [e|part]; [discriminate|]. cbn in *.
  destruct part as [| | | | | |pd]; try discriminate. cbn in *.
  destruct (dict_lookup "text" pd) as [t'|]; [exact H | discriminate].
Qed.

Lemma lacks_attributions_sources c :
  lacks_attributions c -> extract_sources (PDict c) = inr [].
Proof.
  unfold extract_sources, and_then. cbn.
  intros [Hnone | (gm & Hgm & Hattr)].
  - rewrite Hnone. reflexivity.
  - rewrite Hgm. cbn. destruct gm as [|kv gm']; [reflexivity|].
    cbn [truthy]. remember (kv :: gm') as g. clear Heqg.
    cbn. rewrite Hattr. reflexivity.
Qed.

(** X8. A first candidate that has a truthy text and no grounding
    attributions (no groundingMetadata key, or metadata without the
    groundingAttributions key) is a success: the run returns the text
    with an empty sources list after one post. *)
Theorem text_without_attributions API_KEY tr claim w r d c rest t :
  let req := build_request API_KEY claim in
  tr (net_calls w) req = inr r ->
  raise_for_status r = inr tt ->
  json_body r = inr (PDict d) ->
  dict_lookup "candidates" d = Some (PList (PDict c :: rest)) ->
  text_of (PDict c) = inr t ->
  truthy t = true ->
  lacks_attributions c ->
  verify_claim API_KEY tr claim w =
    (result_dict t [],
     {| net_calls := S (net_calls w); trace := trace w ++ [EvPost req] |}).
Proof.
  intros req Hpost Hstatus Hbody Hcands Htext Ht Hattr.
  rewrite (verify_claim_parsed API_KEY tr claim w r _ Hpost Hstatus Hbody).
  fold req. f_equal.
  unfold process_result, first_candidate. cbn [get]. rewrite Hcands.
  cbn [ret bind index0].
  rewrite (text_of_candidate_text c t Htext). cbn [bind]. rewrite Ht, Htext.
  cbn [bind]. rewrite (lacks_attributions_sources c Hattr). reflexivity.
Qed.

Lemma text_without_attributions_witness :
  let body := PDict [("candidates", PList [
                PDict [("content", PDict [("parts", PList [
                         PDict [("text", PStr "Analysis")]])])]])] in
  verify_claim "key" (always (ok_response body)) "claim" fresh =
    (result_dict (PStr "Analysis") [],
     {| net_calls := 1; trace := [EvPost (build_request "key" "claim")] |}).
Proof.
  intros body.
  apply (text_without_attributions "key" (always (ok_response body)) "claim"
           fresh (ok_response body)
           [("candidates", PList [
               PDict [("content", PDict [("parts", PList [
                        PDict [("text", PStr "Analysis")]])])]])]
           [("content", PDict [("parts", PList [PDict [("text", PStr "Analysis")]])])]
           [] (PStr "Analysis")).
  - reflexivity.
  - reflexivity.
  - reflexivity.
  - reflexivity.
  - reflexivity.
  - reflexivity.
  - left. reflexivity.
Defined.

(** X9. A first candidate that is falsy ([null], [{}], ...) or in which
    the path content / parts / first part / text stops at a missing key
    or at a falsy text never raises: the run returns the fixed
    empty-candidate message with no sources after one post. *)
Theorem textless_candidate_message API_KEY tr claim w r d candidate rest :
  let req := build_request API_KEY claim in
  tr (net_calls w) req = inr r ->
  raise_for_status r = inr tt ->
  json_body r = inr (PDict d) ->
  dict_lookup "candidates" d = Some (PList (candidate :: rest)) ->
  lacks_text candidate ->
  verify_claim API_KEY tr claim w =
    (result_dict (PStr "Error: Model returned an empty response candidate.") [],
     {| net_calls := S (net_calls w); trace := trace w ++ [EvPost req] |}).
Proof.
  intros req Hpost Hstatus Hbody Hcands Hlacks.
  rewrite (verify_claim_parsed API_KEY tr claim w r _ Hpost Hstatus Hbody).
  fold req. f_equal.
  unfold process_result, first_candidate. cbn [get]. rewrite Hcands.
  cbn [ret bind index0].
  destruct (lacks_text_cond candidate Hlacks) as (c' & -> & Hc').
  cbn [bind]. rewrite Hc'. reflexivity.
Qed.

Lemma textless_candidate_message_witness :
  let body := PDict [("candidates", PList [
                PDict [("content", PDict [("parts", PList [
                         PDict [("text", PStr EmptyString)]])])]])] in
  verify_claim "key" (always (ok_response body)) "claim" fresh =
    (result_dict (PStr "Error: Model returned an empty response candidate.") [],
     {| net_calls := 1; trace := [EvPost (build_request "key" "claim")] |}).
Proof.
  intros body.
  apply (textless_candidate_message "key" (always (ok_response body)) "claim"
           fresh (ok_response body)
           [("candidates", PList [
               PDict [("content", PDict [("parts", PList [
                        PDict [("text", PStr EmptyString)]])])]])]
           (PDict [("content", PDict [("parts", PList [
                      PDict [("text", PStr EmptyString)]])])])
           []).
  - reflexivity.
  - reflexivity.
  - reflexivity.
  - reflexivity.
  - eapply lacks_part_text; reflexivity.
Defined.

(** ** The request *)

Lemma append_inj_l (s t1 t2 : string) : s +:+ t1 = s +:+ t2 -> t1 = t2.
Proof. induction s as [|a s IH]; cbn; [auto | intros [= H]; auto]. Qed.

Lemma append_quote_inj (s1 : string) : forall s2,
  s1 +:+ "'" = s2 +:+ "'" -> s1 = s2.
Proof.
  induction s1 as [|a s1 IH]; intros [|b s2]; cbn; intros H.
  - reflexivity.
  - injection H as _ H. destruct s2; discriminate.
  - injection H as _ H. destruct s1; discriminate.
  - injection H as -> H. f_equal. auto.
Qed.

(** X10. The payload embeds the claim verbatim between the quotes of
    the query template, so two claims that differ in any character, a
    trailing blank included, are sent as different requests. *)
Theorem distinct_claims_distinct_requests API_KEY claim1 claim2 :
  claim1 <> claim2 ->
  build_request API_KEY claim1 <> build_request API_KEY claim2.
Proof.
  intros Hne Heq. apply Hne.
  unfold build_request, payload in Heq. injection Heq as H.
  unfold user_query in H.
  apply append_inj_l in H. apply append_quote_inj in H. exact H.
Qed.

Lemma distinct_claims_distinct_requests_witness :
  build_request "key" "Purgatory exists" <> build_request "key" "Purgatory exists ".
Proof.
  apply (distinct_claims_distinct_requests "key"). discriminate.
Defined.

(** ** More on the memoisation *)

(** A run starts with a post. *)
Lemma verify_claim_posts_first API_KEY tr claim w :
  exists evs,
    trace (snd (verify_claim API_KEY tr claim w)) =
      trace w ++ EvPost (build_request API_KEY claim) :: evs.
Proof.
  destruct (verify_claim_run API_KEY tr claim w) as (k & _ & _ & _ & Hrun).
  rewrite Hrun. cbn [snd trace]. unfold schedule, schedule_from.
  destruct k as [|k]; cbn [seq flat_map app]; eauto.
Qed.

(** What a call does on a miss. *)
Lemma verify_claim_cached_miss API_KEY tr claim p :
  cache p !! claim = None ->
  verify_claim_cached API_KEY tr claim p =
    (fst (verify_claim API_KEY tr claim (outside p)),
     {| cache := <[claim := fst (verify_claim API_KEY tr claim (outside p))]> (cache p);
        outside := snd (verify_claim API_KEY tr claim (outside p)) |}).
Proof.
  intros Hmiss. unfold verify_claim_cached, cache_data. rewrite Hmiss.
  destruct (verify_claim API_KEY tr claim (outside p)). reflexivity.
Qed.

(** X11. The cache is keyed by the exact claim string: a call for one
    claim leaves the entries of every other claim as they were, so the
    first call for a different claim that is not cached yet goes to the
    network. *)
Theorem distinct_claims_independent API_KEY tr claim1 claim2 p :
  claim1 <> claim2 ->
  let p1 := snd (verify_claim_cached API_KEY tr claim1 p) in
  cache p1 !! claim2 = cache p !! claim2 /\
  (cache p !! claim2 = None ->
   exists evs,
     trace (outside (snd (verify_claim_cached API_KEY tr claim2 p1))) =
       trace (outside p1) ++ EvPost (build_request API_KEY claim2) :: evs).
Proof.
  intros Hne p1.
  assert (cache p1 !! claim2 = cache p !! claim2) as Hsame.
  { subst p1. unfold verify_claim_cached, cache_data.
    destruct (cache p !! claim1); [reflexivity|].
    destruct (verify_claim API_KEY tr claim1 (outside p)). cbn.
    now apply lookup_insert_ne. }
  split; [exact Hsame|].
  intros Hmiss. rewrite <- Hsame in Hmiss.
  rewrite (verify_claim_cached_miss API_KEY tr claim2 p1 Hmiss). cbn [snd outside].
  apply verify_claim_posts_first.
Qed.

Lemma distinct_claims_independent_witness :
  let p1 := snd (verify_claim_cached "key" always_down "Purgatory exists" new_process) in
  exists evs,
    trace (outside (snd (verify_claim_cached "key" always_down "Purgatory exists " p1))) =
      trace (outside p1) ++ EvPost (build_request "key" "Purgatory exists ") :: evs.
Proof.
  intros p1.
  apply (distinct_claims_independent "key" always_down
           "Purgatory exists" "Purgatory exists " new_process).
  - discriminate.
  - reflexivity.
Defined.

(** X12. A failure is memoised like an answer: after a call on a miss
    in which all five attempts failed at transport level, a later call
    for the same claim returns the same connection-failure result from
    the cache without touching the network, whatever the network would
    answer by then. *)
Theorem failure_is_memoized API_KEY tr tr' claim p :
  let req := build_request API_KEY claim in
  cache p !! claim = None ->
  (forall i, (i < 5)%nat ->
     is_Some (transport_failure (tr (i + net_calls (outside p))%nat req))) ->
  let first := verify_claim_cached API_KEY tr claim p in
  exists e,
    transport_failure (tr (4 + net_calls (outside p))%nat req) = Some e /\
    fst first = result_dict (PStr (connect_failure_text e)) [] /\
    verify_claim_cached API_KEY tr' claim (snd first) = (fst first, snd first).
Proof.
  intros req Hmiss Hfail first.
  destruct (Hfail 4%nat ltac:(lia)) as [e He]. exists e. split; [exact He|].
  apply transport_failure_try_block in He as [Htry Hreq].
  subst first. rewrite (verify_claim_cached_miss API_KEY tr claim p Hmiss).
  rewrite (verify_claim_four_retries API_KEY tr claim (outside p))
    by (intros i Hi; apply transport_failure_retryable, Hfail; lia).
  fold req. rewrite Htry. unfold final_value. rewrite Hreq. cbn [fst snd].
  split; [reflexivity|].
  unfold verify_claim_cached, cache_data. cbn [cache].
  now rewrite lookup_insert_eq.
Qed.

Lemma failure_is_memoized_witness :
  let first := verify_claim_cached "key" always_down "claim" new_process in
  verify_claim_cached "key"
    (always (ok_response (api_body (PStr "Analysis") []))) "claim" (snd first)
  = (result_dict
       (PStr "Error: Failed to connect to the verification service after 5 attempts. Details: Connection refused")
       [],
     snd first).
Proof.
  intros first.
  destruct (failure_is_memoized "key" always_down
              (always (ok_response (api_body (PStr "Analysis") [])))
              "claim" new_process)
    as (e & He & Hfirst & Hsecond).
  - reflexivity.
  - intros i _. eexists. reflexivity.
  - injection He as <-. fold first in Hfirst, Hsecond.
    rewrite Hsecond, Hfirst. reflexivity.
Defined.

(** ** The page *)

Section PageProperties.

Variable py_str : pyval -> string.
Variable API_KEY : string.
Variable tr : transport.

Lemma render_sources_from sources : forall acc,
  Forall is_source_ref sources ->
  render_sources py_str sources acc =
    inr (fold_left (fun acc source => acc +:+ bullet py_str source) sources acc).
Proof.
  induction sources as [|source rest IH]; intros acc Hrefs; [reflexivity|].
  inversion Hrefs as [|x l (u & t & -> & Hu) Hrest]; subst.
  cbn [render_sources fold_left]. cbn [get dict_lookup String.eqb Ascii.eqb
    Bool.eqb bind ret getitem].
  rewrite <- (IH _ Hrest). unfold bullet, display_title, source_uri.
  cbn. destruct (truthy t); reflexivity.
Qed.

(** X13. On SourceRefs the loop of lines 142-146 never raises and
    writes one bullet per source, in order; the bullet links to the uri
    and shows the title, or the uri when the title is empty or
    otherwise falsy. *)
Theorem render_sources_bullets sources :
  Forall is_source_ref sources ->
  render_sources py_str sources EmptyString =
    inr (fold_left (fun acc source => acc +:+ bullet py_str source)
           sources EmptyString) /\
  forall u t,
    bullet py_str (PDict [("uri", u); ("title", t)]) =
      "- **[" +:+ py_str (if truthy t then t else u)
      +:+ "](" +:+ py_str u +:+ ")**" +:+ newline.
Proof.
  intros Hrefs. split; [exact (render_sources_from sources EmptyString Hrefs)|].
  intros u t. unfold bullet, display_title, source_uri.
  cbn. destruct (truthy t); reflexivity.
Qed.

(** The display of a well-formed result. *)
Lemma show_results_ok text sources s :
  Forall is_source_ref sources ->
  show_results py_str (result_dict text sources) s =
    (inr tt,
     {| screen := screen s
          ++ [Markdown (PStr results_heading); Markdown text]
          ++ sources_block py_str sources;
        proc := proc s |}).
Proof.
  intros Hrefs. unfold show_results, act_bind, st, expr, result_dict.
  cbn [getitem dict_lookup String.eqb Ascii.eqb Bool.eqb ret screen proc].
  destruct sources as [|source rest].
  - cbn. rewrite <- !app_assoc. reflexivity.
  - cbn [truthy iter ret].
    rewrite (render_sources_from (source :: rest) EmptyString Hrefs).
    cbn [screen proc sources_block]. rewrite <- !app_assoc. reflexivity.
Qed.

(** The script up to the call of [verify_claim]. *)
Lemma main_pressed wd s :
  clicked wd = true ->
  claim_input wd <> EmptyString ->
  main py_str API_KEY tr wd s =
    show_results py_str
      (fst (verify_claim_cached API_KEY tr (claim_input wd) (proc s)))
      {| screen := screen s ++ page_header ++ [Spinner spinner_text];
         proc := snd (verify_claim_cached API_KEY tr (claim_input wd) (proc s)) |}.
Proof.
  intros Hclick Hclaim. unfold main, act_bind, st, call_verify_claim.
  cbn [screen proc]. rewrite Hclick.
  destruct (claim_input wd) as [|a c] eqn:Hc; [congruence|].
  cbn [truthy screen proc].
  destruct (verify_claim_cached API_KEY tr (String a c) (proc s)) as [v p'].
  cbn [fst snd screen proc]. rewrite <- !app_assoc. reflexivity.
Qed.

(** X14. [main] calls [verify_claim] only when the button was pressed
    on a non-empty claim.  Otherwise the process is left as it was (no
    post, no sleep, no cache entry) and the page shows the header,
    followed, when the button was pressed on an empty box, by the
    warning that asks for a claim. *)
Theorem main_without_claim wd s :
  clicked wd = false \/ claim_input wd = EmptyString ->
  main py_str API_KEY tr wd s =
    (inr tt,
     {| screen := screen s ++ page_header
          ++ (if clicked wd then [Warning no_claim_warning] else []);
        proc := proc s |}).
Proof.
  intros H. unfold main, act_bind, st, act_ret. cbn [screen proc].
  destruct (clicked wd).
  - destruct H as [H | ->]; [discriminate|]. cbn [truthy screen proc].
    rewrite <- !app_assoc. reflexivity.
  - rewrite <- !app_assoc. reflexivity.
Qed.

(** Calls keep the cache made of results of [verify_claim]. *)
Lemma verify_claim_cached_ok claim p :
  cache_ok (cache p) ->
  is_verification_result (fst (verify_claim_cached API_KEY tr claim p)) /\
  cache_ok (cache (snd (verify_claim_cached API_KEY tr claim p))).
Proof.
  intros Hok. unfold verify_claim_cached, cache_data.
  destruct (cache p !! claim) as [v|] eqn:Hhit.
  - split; [exact (Hok _ _ Hhit) | exact Hok].
  - pose proof (verify_claim_is_result API_KEY tr claim (outside p)) as Hres.
    destruct (verify_claim API_KEY tr claim (outside p)) as [v w'].
    cbn [fst snd cache] in *. split; [exact Hres|].
    intros c v' Hc. destruct (decide (claim = c)) as [->|Hne].
    + rewrite lookup_insert_eq in Hc. injection Hc as <-. exact Hres.
    + rewrite lookup_insert_ne in Hc by exact Hne. exact (Hok _ _ Hc).
Qed.

(** X15. In a process whose cache holds only results of [verify_claim]
    (an empty cache to begin with), a run of [main] never raises,
    whatever the widgets return and the network does, and it leaves
    the cache in that state for the next run. *)
Theorem main_never_raises wd s :
  cache_ok (cache (proc s)) ->
  fst (main py_str API_KEY tr wd s) = inr tt /\
  cache_ok (cache (proc (snd (main py_str API_KEY tr wd s)))).
Proof.
  intros Hok.
  destruct (clicked wd) eqn:Hclick.
  - destruct (string_dec (claim_input wd) EmptyString) as [Hempty|Hclaim].
    + rewrite main_without_claim by auto. auto.
    + rewrite (main_pressed wd s Hclick Hclaim).
      destruct (verify_claim_cached_ok (claim_input wd) (proc s) Hok)
        as ((text & sources & -> & Hrefs) & Hok').
      rewrite (show_results_ok text sources _ Hrefs). auto.
  - rewrite main_without_claim by auto. auto.
Qed.

(** X16. The button pressed on a non-empty claim (a blank one
    included): the page shows the spinner, the heading and the text of
    the result as it is, then the sources as bullets under their
    heading when there are any, and the no-sources warning when there
    are none. *)
Theorem main_shows_result wd s text sources :
  clicked wd = true ->
  claim_input wd <> EmptyString ->
  fst (verify_claim_cached API_KEY tr (claim_input wd) (proc s))
    = result_dict text sources ->
  Forall is_source_ref sources ->
  main py_str API_KEY tr wd s =
    (inr tt,
     {| screen := screen s ++ page_header
          ++ [Spinner spinner_text;
              Markdown (PStr results_heading);
              Markdown text]
          ++ sources_block py_str sources;
        proc := snd (verify_claim_cached API_KEY tr (claim_input wd) (proc s)) |}).
Proof.
  intros Hclick Hclaim Hres Hrefs.
  rewrite (main_pressed wd s Hclick Hclaim), Hres.
  rewrite (show_results_ok text sources _ Hrefs). cbn [screen proc].
  rewrite <- !app_assoc. reflexivity.
Qed.

(** X17. A network failure reaches the user as ordinary text: when
    the claim is not cached and all five attempts fail at transport
    level, the page shows the connection-failure message where the
    analysis would be, followed by the warning that no grounding
    sources were found. *)
Theorem main_shows_failure wd s :
  let req := build_request API_KEY (claim_input wd) in
  clicked wd = true ->
  claim_input wd <> EmptyString ->
  cache (proc s) !! claim_input wd = None ->
  (forall i, (i < 5)%nat ->
     is_Some (transport_failure (tr (i + net_calls (outside (proc s)))%nat req))) ->
  exists e,
    transport_failure (tr (4 + net_calls (outside (proc s)))%nat req) = Some e /\
    fst (main py_str API_KEY tr wd s) = inr tt /\
    screen (snd (main py_str API_KEY tr wd s)) =
      screen s ++ page_header
      ++ [Spinner spinner_text;
          Markdown (PStr results_heading);
          Markdown (PStr ("Error: Failed to connect to the verification service after 5 attempts. Details: "
                          +:+ exn_str e));
          Warning no_sources_warning].
Proof.
  intros req Hclick Hclaim Hmiss Hfail.
  destruct (Hfail 4%nat ltac:(lia)) as [e He]. exists e. split; [exact He|].
  apply transport_failure_try_block in He as [Htry Hreq].
  rewrite (main_pressed wd s Hclick Hclaim).
  rewrite (verify_claim_cached_miss API_KEY tr _ _ Hmiss).
  rewrite (verify_claim_four_retries API_KEY tr _ (outside (proc s)))
    by (intros i Hi; apply transport_failure_retryable, Hfail; lia).
  fold req. rewrite Htry. unfold final_value. rewrite Hreq. cbn [fst snd].
  rewrite (show_results_ok _ [] _ (List.Forall_nil _)). cbn [fst snd screen sources_block].
  rewrite <- !app_assoc. split; reflexivity.
Qed.

End PageProperties.

Lemma example_refs : Forall is_source_ref [untitled_source; titled_source].
Proof. repeat constructor; eexists _, _; split; reflexivity. Qed.

Lemma cache_ok_empty : cache_ok ∅.
Proof. intros claim v H. rewrite lookup_empty in H. discriminate H. Qed.

Lemma render_sources_bullets_witness :
  render_sources str_scalar [untitled_source; titled_source] EmptyString =
    inr ("- **[https://a](https://a)**" +:+ newline
         +:+ "- **[B](https://b)**" +:+ newline).
Proof.
  destruct (render_sources_bullets str_scalar [untitled_source; titled_source]
              example_refs) as [H _].
  rewrite H. reflexivity.
Defined.

Lemma main_without_claim_witness :
  main str_scalar "key" always_down (pressed EmptyString) new_session =
    (inr tt,
     {| screen := page_header ++ [Warning "Please enter a claim to begin analysis."];
        proc := new_process |}).
Proof.
  apply (main_without_claim str_scalar "key" always_down
           (pressed EmptyString) new_session).
  right. reflexivity.
Defined.

Lemma main_never_raises_witness :
  fst (main str_scalar "key" always_down (pressed "claim") new_session) = inr tt.
Proof.
  apply (main_never_raises str_scalar "key" always_down (pressed "claim")
           new_session).
  exact cache_ok_empty.
Defined.

Lemma main_shows_result_witness :
  let tr := always (ok_response (api_body (PStr "Analysis")
                                   [ PDict [("web", untitled_source)];
                                     PDict [("web", titled_source)] ])) in
  screen (snd (main str_scalar "key" tr (pressed " ") new_session)) =
    page_header
    ++ [ Spinner spinner_text;
         Markdown (PStr results_heading);
         Markdown (PStr "Analysis");
         Markdown (PStr "---");
         Subheader sources_heading;
         Markdown (PStr ("- **[https://a](https://a)**" +:+ newline
                         +:+ "- **[B](https://b)**" +:+ newline));
         Caption sources_caption ].
Proof.
  intros tr.
  rewrite (main_shows_result str_scalar "key" tr (pressed " ") new_session
             (PStr "Analysis") [untitled_source; titled_source]).
  - reflexivity.
  - reflexivity.
  - discriminate.
  - reflexivity.
  - exact example_refs.
Defined.

Lemma main_shows_failure_witness :
  screen (snd (main str_scalar "key" always_down (pressed "claim") new_session)) =
    page_header
    ++ [ Spinner spinner_text;
         Markdown (PStr results_heading);
         Markdown (PStr "Error: Failed to connect to the verification service after 5 attempts. Details: Connection refused");
         Warning "No specific grounding sources were found, or the model relied on internal knowledge." ].
Proof.
  destruct (main_shows_failure str_scalar "key" always_down (pressed "claim")
              new_session)
    as (e & He & _ & Hscreen).
  - reflexivity.
  - discriminate.
  - reflexivity.
  - intros i _. eexists. reflexivity.
  - injection He as <-. exact Hscreen.
Defined.

(** Drawing the results does not touch the process, even when it
    raises. *)
Lemma show_results_proc py_str results s :
  proc (snd (show_results py_str results s)) = proc s.
Proof.
  unfold show_results, act_bind, st, expr. cbn [screen proc].
  destruct (getitem results "text") as [e|text]; [reflexivity|].
  cbn [screen proc].
  destruct (getitem results "sources") as [e|sources]; [reflexivity|].
  destruct (truthy sources); [|reflexivity]. cbn [screen proc].
  destruct (iter sources) as [e|items]; [reflexivity|].
  destruct (render_sources py_str items EmptyString); reflexivity.
Qed.

(** The process after a run of [main]. *)
Lemma main_proc py_str API_KEY tr wd s :
  proc (snd (main py_str API_KEY tr wd s)) =
    if clicked wd && truthy (PStr (claim_input wd))
    then snd (verify_claim_cached API_KEY tr (claim_input wd) (proc s))
    else proc s.
Proof.
  unfold main, act_bind, st, act_ret, call_verify_claim. cbn [screen proc].
  destruct (clicked wd); [|reflexivity]. cbn [andb].
  destruct (truthy (PStr (claim_input wd))); [|reflexivity].
  cbn [screen proc].
  destruct (verify_claim_cached API_KEY tr (claim_input wd) (proc s)) as [v p'].
  cbn [snd]. apply show_results_proc.
Qed.

(** X18. Running the script again with the same widget values does not
    reach the network: after a run of [main], a second run on the same
    claim and button state leaves the process exactly as the first
    left it (no post, no sleep, no cache change), whatever the network
    would answer by then. *)
Theorem main_rerun_is_cached py_str API_KEY tr tr' wd s :
  let s1 := snd (main py_str API_KEY tr wd s) in
  proc (snd (main py_str API_KEY tr' wd s1)) = proc s1.
Proof.
  intros s1. rewrite main_proc.
  destruct (clicked wd && truthy (PStr (claim_input wd))) eqn:Hcall;
    [|reflexivity].
  assert (proc s1 = snd (verify_claim_cached API_KEY tr (claim_input wd) (proc s)))
    as Hs1 by (subst s1; rewrite main_proc, Hcall; reflexivity).
  pose proof (verify_claim_cached_stores API_KEY tr (claim_input wd) (proc s))
    as Hstored.
  rewrite <- Hs1 in Hstored.
  unfold verify_claim_cached, cache_data at 1. now rewrite Hstored.
Qed.
